(** * Tourism analytics: the synthetic dataset generator and the SQL
      compatibility verifier

    A shallow embedding of [dataset/generate_tourism_dataset.py] and
    [dataset/compatibility_check.py].

    Conventions of the embedding.
    - Python [int] is [Z]; Python [float] is idealised as an exact rational
      [Q] (no binary64 rounding error); the two roundings the program asks
      for itself, [int(x)] and [round(x, n)], are written out.  The
      arithmetic of the concrete scenarios is replayed on binary64 floats
      in [Binary64].
    - The global numpy random state is threaded explicitly: a generator is
      a function from the state before to a result and the state after.
    - A Python exception ([KeyError], [IndexError], [ZeroDivisionError])
      ends the computation; it is the [Raise] branch of [result]. *)

From Stdlib Require Import ZArith QArith Qround Qabs String Ascii List Bool Lia Lqa.
From Stdlib Require Floats.PrimFloat.
Import ListNotations.

Local Open Scope Z_scope.
Local Open Scope string_scope.
Local Open Scope list_scope.
Local Open Scope Q_scope.

(** ** Python numbers *)

Module Py.

(** [int(x)] on a float: truncation toward zero. *)
Definition int (x : Q) : Z := Z.quot (Qnum x) (Zpos (Qden x)).

(** [max(a, b)]: the first argument unless the second is strictly larger. *)
Definition max (a b : Q) : Q := if Qle_bool b a then a else b.

(** Nearest integer, ties to the even one. *)
Definition round_half_even (x : Q) : Z :=
  let f := Qfloor x in
  match Qcompare (x - inject_Z f) (1 # 2) with
  | Lt => f
  | Gt => (f + 1)%Z
  | Eq => if Z.even f then f else (f + 1)%Z
  end.

Definition pow10 (n : nat) : Q := inject_Z (10 ^ Z.of_nat n).

(** [round(x, n)]: [x] rounded to [n] decimal places. *)
Definition round (x : Q) (n : nat) : Q :=
  inject_Z (round_half_even (x * pow10 n)) / pow10 n.

(** [s[:n]] on a string. *)
Fixpoint take (n : nat) (s : string) : string :=
  match n, s with
  | S n', String c s' => String c (take n' s')
  | _, _ => EmptyString
  end.

Definition upper_char (c : ascii) : ascii :=
  let n := nat_of_ascii c in
  if ((97 <=? n)%nat && (n <=? 122)%nat)%bool then ascii_of_nat (n - 32) else c.

(** [s.upper()] on an ASCII string. *)
Fixpoint upper (s : string) : string :=
  match s with
  | EmptyString => EmptyString
  | String c s' => String (upper_char c) (upper s')
  end.

(** [x in l] on integers. *)
Definition mem (x : Z) (l : list Z) : bool := existsb (Z.eqb x) l.

End Py.

(** ** Exceptions and the generator monad *)

Inductive exn : Type := KeyError | IndexError | ZeroDivisionError.

Inductive result (A : Type) : Type :=
| Ok (a : A)
| Raise (e : exn).
Arguments Ok {A} a.
Arguments Raise {A} e.

(** The numpy random state [np.random]: seeding and the two samplers the
    generator calls.  Each draw returns a value and the state after it. *)
Class RandomState (rng : Type) : Type := {
  np_seed : Z -> rng;
  np_normal : Q -> Q -> rng -> Q * rng;
  np_uniform : Q -> Q -> rng -> Q * rng
}.

Definition M (rng A : Type) : Type := rng -> result (A * rng).

Definition ret {rng A} (a : A) : M rng A := fun st => Ok (a, st).

Definition bind {rng A B} (m : M rng A) (k : A -> M rng B) : M rng B :=
  fun st => match m st with
            | Ok (a, st') => k a st'
            | Raise e => Raise e
            end.

Definition raise {rng A} (e : exn) : M rng A := fun _ => Raise e.

Definition draw {rng A} (f : rng -> A * rng) : M rng A := fun st => Ok (f st).

Declare Scope gen_scope.
Delimit Scope gen_scope with gen.
Notation "x <- m ;; k" := (bind m (fun x => k))
  (at level 61, m at next level, right associativity) : gen_scope.
Notation "'let*' x := e 'in' k" := (bind (ret e) (fun x => k))
  (at level 61, x name, e at next level, right associativity, only parsing) : gen_scope.

(** [for x in xs: data = body(x, data)]: a loop that grows an accumulator. *)
Fixpoint for_each {rng X D} (body : X -> D -> M rng D) (xs : list X) (data : D)
  : M rng D :=
  match xs with
  | [] => ret data
  | x :: rest => bind (body x data) (for_each body rest)
  end.

(** [d[k]] on a dict, kept as an association list in insertion order. *)
Fixpoint assoc {K V} (eqb : K -> K -> bool) (d : list (K * V)) (k : K) : option V :=
  match d with
  | [] => None
  | (k', v) :: d' => if eqb k k' then Some v else assoc eqb d' k
  end.

Definition dict_get {rng K V} (eqb : K -> K -> bool) (d : list (K * V)) (k : K)
  : M rng V :=
  match assoc eqb d k with
  | Some v => ret v
  | None => raise KeyError
  end.

(** [l[i]] on a list; a negative index counts from the end. *)
Definition index {V} (l : list V) (i : Z) : option V :=
  if (i <? 0)%Z
  then (if (i + Z.of_nat (length l) <? 0)%Z then None
        else nth_error l (Z.to_nat (i + Z.of_nat (length l))))
  else nth_error l (Z.to_nat i).

Definition list_get {rng V} (l : list V) (i : Z) : M rng V :=
  match index l i with
  | Some v => ret v
  | None => raise IndexError
  end.

(** [x / y] on floats. *)
Definition py_div {rng} (x y : Q) : M rng Q :=
  if Qeq_bool y 0 then raise ZeroDivisionError else ret (x / y).

(** ** The tables *)

(** A value of [countries_data]. *)
Record CountryInfo : Type := mkInfo {
  region : string;
  population : Z;
  gdp_per_capita : Z;
  tourism_maturity : string
}.

(** A row of the base table, [Tourism_Arrivals_Enhanced]. *)
Record ArrivalRecord : Type := mkArrival {
  Country : string;
  Country_Code : string;
  Region : string;
  Year : Z;
  Month : Z;
  Arrivals : Z;
  Arrivals_Growth_Rate : Q;
  Arrivals_Per_Capita : Q;
  Source_Market_Diversity : Q;
  Peak_Season_Arrivals : Z;
  Off_Season_Arrivals : Z;
  Population : Z;
  GDP_Per_Capita : Z;
  Tourism_Maturity : string
}.

Module Hotel.
Record row : Type := mk {
  Country : string;
  Country_Code : string;
  Region : string;
  Year : Z;
  Month : Z;
  Hotel_Bookings : Z;
  Average_Daily_Rate : Q;
  Occupancy_Rate : Q;
  Revenue : Q;
  Tourism_Maturity : string
}.
End Hotel.

Module Flight.
Record row : Type := mk {
  Country : string;
  Country_Code : string;
  Region : string;
  Year : Z;
  Month : Z;
  Flight_Capacity : Z;
  Passengers : Z;
  Load_Factor : Q;
  Average_Ticket_Price : Q;
  Revenue : Q;
  Tourism_Maturity : string
}.
End Flight.

Module Revenue.
Record row : Type := mk {
  Country : string;
  Country_Code : string;
  Region : string;
  Year : Z;
  Month : Z;
  Total_Revenue : Q;
  Accommodation_Revenue : Q;
  Transportation_Revenue : Q;
  Food_Beverage_Revenue : Q;
  Activities_Revenue : Q;
  Revenue_Per_Tourist : Q;
  Tourism_Maturity : string
}.
End Revenue.

(** The key of a row in each table. *)
Definition Key : Type := (string * Z * Z)%type.

Definition key (r : ArrivalRecord) : Key := (Country r, Year r, Month r).
Definition hotel_key (r : Hotel.row) : Key :=
  (Hotel.Country r, Hotel.Year r, Hotel.Month r).
Definition flight_key (r : Flight.row) : Key :=
  (Flight.Country r, Flight.Year r, Flight.Month r).
Definition revenue_key (r : Revenue.row) : Key :=
  (Revenue.Country r, Revenue.Year r, Revenue.Month r).

(** ** Static reference data of [generate_tourism_dataset] *)

Definition countries_data : list (string * CountryInfo) :=
  [
    ("France", mkInfo "Europe" 67390000 42000 "mature");
    ("Spain", mkInfo "Europe" 47350000 30000 "mature");
    ("Italy", mkInfo "Europe" 60360000 35000 "mature");
    ("Germany", mkInfo "Europe" 83190000 48000 "mature");
    ("United Kingdom", mkInfo "Europe" 67220000 45000 "mature");
    ("Netherlands", mkInfo "Europe" 17130000 52000 "mature");
    ("Switzerland", mkInfo "Europe" 8650000 85000 "mature");
    ("Austria", mkInfo "Europe" 9006000 50000 "mature");
    ("Greece", mkInfo "Europe" 10423000 20000 "mature");
    ("Portugal", mkInfo "Europe" 10196000 25000 "mature");
    ("Poland", mkInfo "Eastern Europe" 38386000 18000 "emerging");
    ("Czech Republic", mkInfo "Eastern Europe" 10700000 23000 "emerging");
    ("Hungary", mkInfo "Eastern Europe" 9773000 17000 "emerging");
    ("Romania", mkInfo "Eastern Europe" 19240000 14000 "emerging");
    ("Croatia", mkInfo "Eastern Europe" 4105000 17000 "emerging");
    ("United States", mkInfo "North America" 331000000 65000 "mature");
    ("Canada", mkInfo "North America" 38000000 45000 "mature");
    ("Mexico", mkInfo "North America" 128900000 10000 "emerging");
    ("Costa Rica", mkInfo "Central America" 5094000 12000 "emerging");
    ("Panama", mkInfo "Central America" 4315000 15000 "emerging");
    ("Guatemala", mkInfo "Central America" 17920000 5000 "emerging");
    ("Jamaica", mkInfo "Caribbean" 2961000 5500 "emerging");
    ("Dominican Republic", mkInfo "Caribbean" 10850000 8000 "emerging");
    ("Bahamas", mkInfo "Caribbean" 393000 32000 "mature");
    ("Cuba", mkInfo "Caribbean" 11330000 9000 "emerging");
    ("Barbados", mkInfo "Caribbean" 287000 18000 "mature");
    ("China", mkInfo "Asia" 1402000000 12000 "emerging");
    ("Japan", mkInfo "Asia" 125800000 40000 "mature");
    ("South Korea", mkInfo "Asia" 51270000 35000 "mature");
    ("Thailand", mkInfo "Asia" 69800000 8000 "emerging");
    ("Singapore", mkInfo "Asia" 5850000 65000 "mature");
    ("Malaysia", mkInfo "Asia" 32700000 12000 "emerging");
    ("Vietnam", mkInfo "Asia" 97340000 4000 "emerging");
    ("India", mkInfo "Asia" 1380000000 2000 "emerging");
    ("Indonesia", mkInfo "Asia" 273500000 4000 "emerging");
    ("Philippines", mkInfo "Asia" 109600000 3500 "emerging");
    ("Nepal", mkInfo "Asia" 29140000 1200 "emerging");
    ("Sri Lanka", mkInfo "Asia" 21800000 4000 "emerging");
    ("United Arab Emirates", mkInfo "Middle East" 9890000 43000 "emerging");
    ("Saudi Arabia", mkInfo "Middle East" 34800000 23000 "emerging");
    ("Qatar", mkInfo "Middle East" 2880000 61000 "emerging");
    ("Turkey", mkInfo "Middle East" 84340000 9000 "emerging");
    ("Israel", mkInfo "Middle East" 9217000 43000 "mature");
    ("Jordan", mkInfo "Middle East" 10200000 4200 "emerging");
    ("Australia", mkInfo "Oceania" 25690000 55000 "mature");
    ("New Zealand", mkInfo "Oceania" 5080000 42000 "mature");
    ("Fiji", mkInfo "Pacific Islands" 896000 6000 "emerging");
    ("Samoa", mkInfo "Pacific Islands" 198000 4300 "emerging");
    ("Papua New Guinea", mkInfo "Pacific Islands" 8947000 2500 "emerging");
    ("South Africa", mkInfo "Africa" 59310000 6000 "emerging");
    ("Morocco", mkInfo "Africa" 36910000 3500 "emerging");
    ("Egypt", mkInfo "Africa" 102300000 3000 "emerging");
    ("Kenya", mkInfo "Africa" 53770000 2000 "emerging");
    ("Nigeria", mkInfo "Sub-Saharan Africa" 206100000 2200 "emerging");
    ("Ethiopia", mkInfo "Sub-Saharan Africa" 114900000 900 "emerging");
    ("Tanzania", mkInfo "Sub-Saharan Africa" 59730000 1100 "emerging");
    ("Ghana", mkInfo "Sub-Saharan Africa" 31070000 2200 "emerging");
    ("Brazil", mkInfo "South America" 212600000 9000 "emerging");
    ("Argentina", mkInfo "South America" 45196000 10000 "emerging");
    ("Chile", mkInfo "South America" 19116000 15000 "emerging");
    ("Peru", mkInfo "South America" 32972000 7000 "emerging");
    ("Colombia", mkInfo "South America" 50880000 6000 "emerging");
    ("Ecuador", mkInfo "South America" 17640000 6000 "emerging");
    ("Uruguay", mkInfo "South America" 3474000 17000 "emerging");
    ("Paraguay", mkInfo "South America" 7132000 5500 "emerging")
  ]%Z.

Definition years : list Z := [2018; 2019; 2020; 2021; 2022]%Z.

(** [list(range(1, 13))] *)
Definition months : list Z := map Z.of_nat (seq 1 12).

Definition regional_multipliers : list (string * Q) :=
  [
    ("Europe", 1.2);
    ("Eastern Europe", 0.9);
    ("North America", 1.0);
    ("Central America", 0.7);
    ("Caribbean", 0.8);
    ("Asia", 0.8);
    ("Middle East", 0.6);
    ("Oceania", 0.4);
    ("Pacific Islands", 0.3);
    ("Africa", 0.3);
    ("Sub-Saharan Africa", 0.2);
    ("South America", 0.5)
  ].

Definition seasonal_patterns : list (string * list Q) :=
  [
    ("Europe", [0.6; 0.5; 0.7; 0.8; 1.0; 1.2; 1.5; 1.4; 1.1; 0.9; 0.7; 0.6]);
    ("Eastern Europe", [0.5; 0.4; 0.6; 0.7; 0.9; 1.1; 1.4; 1.3; 1.0; 0.8; 0.6; 0.5]);
    ("North America", [0.7; 0.6; 0.8; 0.9; 1.0; 1.1; 1.3; 1.2; 1.0; 0.9; 0.8; 0.7]);
    ("Central America", [0.8; 0.7; 0.9; 1.0; 1.1; 1.0; 1.2; 1.1; 1.0; 0.9; 0.8; 0.8]);
    ("Caribbean", [1.0; 1.0; 1.1; 1.1; 1.2; 1.2; 1.3; 1.3; 1.2; 1.1; 1.0; 1.0]);
    ("Asia", [0.8; 0.7; 0.9; 1.0; 1.1; 1.0; 1.2; 1.1; 1.0; 0.9; 0.8; 0.8]);
    ("Middle East", [1.0; 0.9; 1.1; 1.0; 0.8; 0.6; 0.5; 0.6; 0.8; 1.0; 1.1; 1.0]);
    ("Oceania", [1.2; 1.1; 1.0; 0.9; 0.8; 0.7; 0.6; 0.7; 0.8; 0.9; 1.0; 1.1]);
    ("Pacific Islands", [1.1; 1.1; 1.0; 0.9; 0.8; 0.8; 0.9; 1.0; 1.1; 1.1; 1.1; 1.1]);
    ("Africa", [0.9; 0.8; 1.0; 1.1; 1.0; 0.9; 0.8; 0.9; 1.0; 1.1; 1.0; 0.9]);
    ("Sub-Saharan Africa", [0.8; 0.7; 0.9; 1.0; 1.1; 1.0; 0.9; 0.8; 0.9; 1.0; 1.1; 1.0]);
    ("South America", [0.8; 0.7; 0.9; 1.0; 1.1; 1.0; 0.9; 0.8; 0.9; 1.0; 1.1; 1.0])
  ].

Definition year_multipliers : list (Z * Q) :=
  [ (2018%Z, 1.0);
    (2019%Z, 1.05);
    (2020%Z, 0.3);
    (2021%Z, 0.6);
    (2022%Z, 0.85) ].

Definition peak_months : list Z := [6; 7; 8; 12]%Z.

(** ** The generator *)

Definition DataFrame (row : Type) : Type := list row.

Section Generator.

Context {rng : Type} {RS : RandomState rng}.

Local Open Scope gen_scope.

Local Abbreviation G := (M rng).

(** The body of [for month in months], lines 165-216: one record is
    drawn and appended to [data]. *)
Definition month_body (country : string) (country_info : CountryInfo)
    (base_arrivals : Q) (year : Z) (year_multiplier : Q)
    (month : Z) (data : list ArrivalRecord) : G (list ArrivalRecord) :=
  pattern <- dict_get String.eqb seasonal_patterns (region country_info) ;;
  seasonal_multiplier <- list_get pattern (month - 1)%Z ;;
  let base_monthly := base_arrivals / 12 * seasonal_multiplier * year_multiplier in
  variation <- draw (np_normal 0 0.1) ;;
  let arrivals := Py.max 0 (base_monthly * (1 + variation)) in
  growth_rate <-
    (if (year >? 2018)%Z then
       prev <- dict_get Z.eqb year_multipliers (year - 1)%Z ;;
       prev' <- dict_get Z.eqb year_multipliers (year - 1)%Z ;;
       ratio <- py_div (year_multiplier - prev) prev' ;;
       noise <- draw (np_normal 0 5) ;;
       ret (ratio * 100 + noise)
     else
       draw (np_normal 2 3)) ;;
  arrivals_per_capita <- py_div arrivals (inject_Z (population country_info)) ;;
  source_diversity <- draw (np_uniform 0.4 0.9) ;;
  let peak_arrivals :=
    if Py.mem month peak_months then arrivals * 1.5 else arrivals * 0.8 in
  let off_peak_arrivals :=
    if Py.mem month peak_months then arrivals * 0.6 else arrivals * 1.2 in
  peak_noise <- draw (np_uniform 0.9 1.1) ;;
  let peak_arrivals := peak_arrivals * peak_noise in
  off_noise <- draw (np_uniform 0.9 1.1) ;;
  let off_peak_arrivals := off_peak_arrivals * off_noise in
  ret (data ++
       [ {| Country := country;
            Country_Code := Py.upper (Py.take 3 country);
            Region := region country_info;
            Year := year;
            Month := month;
            Arrivals := Py.int arrivals;
            Arrivals_Growth_Rate := Py.round growth_rate 1;
            Arrivals_Per_Capita := Py.round arrivals_per_capita 6;
            Source_Market_Diversity := Py.round source_diversity 2;
            Peak_Season_Arrivals := Py.int peak_arrivals;
            Off_Season_Arrivals := Py.int off_peak_arrivals;
            Population := population country_info;
            GDP_Per_Capita := gdp_per_capita country_info;
            Tourism_Maturity := tourism_maturity country_info |} ]).

(** The body of [for year in years], lines 162-216. *)
Definition year_body (country : string) (country_info : CountryInfo)
    (base_arrivals : Q) (year : Z) (data : list ArrivalRecord)
  : G (list ArrivalRecord) :=
  year_multiplier <- dict_get Z.eqb year_multipliers year ;;
  for_each (month_body country country_info base_arrivals year year_multiplier)
           months data.

(** [base_arrivals] before the regional multiplier, lines 112-116. *)
Definition maturity_base (country_info : CountryInfo) : Q :=
  let base_arrivals := inject_Z (population country_info) * 0.1 in
  if String.eqb (tourism_maturity country_info) "mature" then base_arrivals * 1.5
  else if String.eqb (tourism_maturity country_info) "emerging" then base_arrivals * 0.8
  else base_arrivals.

(** The body of [for country, country_info in countries_data.items()],
    lines 105-216. *)
Definition country_body (item : string * CountryInfo) (data : list ArrivalRecord)
  : G (list ArrivalRecord) :=
  let country := fst item in
  let country_info := snd item in
  let base_arrivals := maturity_base country_info in
  multiplier <- dict_get String.eqb regional_multipliers (region country_info) ;;
  let base_arrivals := base_arrivals * multiplier in
  for_each (year_body country country_info base_arrivals) years data.

(** The generator over a given country table; [generate_tourism_dataset]
    is this at the literal [countries_data]. *)
Definition generate_from (countries : list (string * CountryInfo))
  : G (DataFrame ArrivalRecord) :=
  for_each country_body countries [].

Definition generate_tourism_dataset : G (DataFrame ArrivalRecord) :=
  generate_from countries_data.

(** One iteration of [for _, row in tourism_df.iterrows()] in
    [generate_hotel_bookings_dataset], lines 226-261. *)
Definition hotel_body (row : ArrivalRecord) (data : list Hotel.row)
  : G (list Hotel.row) :=
  booking_rate <- draw (np_uniform 0.6 0.9) ;;
  let bookings := Py.int (inject_Z (Arrivals row) * booking_rate) in
  let base_adr := inject_Z (GDP_Per_Capita row) * 0.1 in
  let base_adr :=
    if String.eqb (Tourism_Maturity row) "mature" then base_adr * 1.2
    else if String.eqb (Tourism_Maturity row) "emerging" then base_adr * 0.8
    else base_adr in
  adr_noise <-
    (if Py.mem (Month row) peak_months
     then draw (np_uniform 1.3 1.8) else draw (np_uniform 0.7 1.2)) ;;
  let adr := base_adr * adr_noise in
  occupancy <- draw (np_uniform 0.4 0.95) ;;
  let revenue := inject_Z bookings * adr * occupancy in
  ret (data ++
       [ {| Hotel.Country := Country row;
            Hotel.Country_Code := Country_Code row;
            Hotel.Region := Region row;
            Hotel.Year := Year row;
            Hotel.Month := Month row;
            Hotel.Hotel_Bookings := bookings;
            Hotel.Average_Daily_Rate := Py.round adr 2;
            Hotel.Occupancy_Rate := Py.round occupancy 3;
            Hotel.Revenue := Py.round revenue 2;
            Hotel.Tourism_Maturity := Tourism_Maturity row |} ]).

Definition generate_hotel_bookings_dataset (tourism_df : DataFrame ArrivalRecord)
  : G (DataFrame Hotel.row) :=
  for_each hotel_body tourism_df [].

(** One iteration of the loop of [generate_flight_data_dataset],
    lines 271-310. *)
Definition flight_body (row : ArrivalRecord) (data : list Flight.row)
  : G (list Flight.row) :=
  capacity_factor <- draw (np_uniform 1.2 1.8) ;;
  let capacity := Py.int (inject_Z (Arrivals row) * capacity_factor) in
  load_factor <- draw (np_uniform 0.6 0.95) ;;
  let passengers := Py.int (inject_Z capacity * load_factor) in
  let base_ticket_price := inject_Z (GDP_Per_Capita row) * 0.05 in
  let base_ticket_price :=
    if String.eqb (Region row) "Europe" then base_ticket_price * 0.8
    else if existsb (String.eqb (Region row)) ["Asia"; "Oceania"]
         then base_ticket_price * 1.5
    else base_ticket_price in
  price_noise <-
    (if Py.mem (Month row) peak_months
     then draw (np_uniform 1.2 1.6) else draw (np_uniform 0.8 1.1)) ;;
  let ticket_price := base_ticket_price * price_noise in
  let revenue := inject_Z passengers * ticket_price in
  ret (data ++
       [ {| Flight.Country := Country row;
            Flight.Country_Code := Country_Code row;
            Flight.Region := Region row;
            Flight.Year := Year row;
            Flight.Month := Month row;
            Flight.Flight_Capacity := capacity;
            Flight.Passengers := passengers;
            Flight.Load_Factor := Py.round load_factor 3;
            Flight.Average_Ticket_Price := Py.round ticket_price 2;
            Flight.Revenue := Py.round revenue 2;
            Flight.Tourism_Maturity := Tourism_Maturity row |} ]).

Definition generate_flight_data_dataset (tourism_df : DataFrame ArrivalRecord)
  : G (DataFrame Flight.row) :=
  for_each flight_body tourism_df [].

(** One iteration of the loop of [generate_tourism_revenue_dataset],
    lines 320-357. *)
Definition revenue_body (row : ArrivalRecord) (data : list Revenue.row)
  : G (list Revenue.row) :=
  let base_revenue_per_tourist := inject_Z (GDP_Per_Capita row) * 0.3 in
  let base_revenue_per_tourist :=
    if String.eqb (Tourism_Maturity row) "mature" then base_revenue_per_tourist * 1.3
    else if String.eqb (Tourism_Maturity row) "emerging"
         then base_revenue_per_tourist * 0.7
    else base_revenue_per_tourist in
  tourist_noise <-
    (if Py.mem (Month row) peak_months
     then draw (np_uniform 1.2 1.5) else draw (np_uniform 0.8 1.1)) ;;
  let revenue_per_tourist := base_revenue_per_tourist * tourist_noise in
  let total_revenue := inject_Z (Arrivals row) * revenue_per_tourist in
  share_acc <- draw (np_uniform 0.3 0.5) ;;
  share_tra <- draw (np_uniform 0.2 0.3) ;;
  share_food <- draw (np_uniform 0.15 0.25) ;;
  share_act <- draw (np_uniform 0.1 0.2) ;;
  ret (data ++
       [ {| Revenue.Country := Country row;
            Revenue.Country_Code := Country_Code row;
            Revenue.Region := Region row;
            Revenue.Year := Year row;
            Revenue.Month := Month row;
            Revenue.Total_Revenue := Py.round total_revenue 2;
            Revenue.Accommodation_Revenue := Py.round (total_revenue * share_acc) 2;
            Revenue.Transportation_Revenue := Py.round (total_revenue * share_tra) 2;
            Revenue.Food_Beverage_Revenue := Py.round (total_revenue * share_food) 2;
            Revenue.Activities_Revenue := Py.round (total_revenue * share_act) 2;
            Revenue.Revenue_Per_Tourist := Py.round revenue_per_tourist 2;
            Revenue.Tourism_Maturity := Tourism_Maturity row |} ]).

Definition generate_tourism_revenue_dataset (tourism_df : DataFrame ArrivalRecord)
  : G (DataFrame Revenue.row) :=
  for_each revenue_body tourism_df [].

(** The four tables that one run writes out. *)
Record Tables : Type := mkTables {
  tourism_df : DataFrame ArrivalRecord;
  hotel_df : DataFrame Hotel.row;
  flight_df : DataFrame Flight.row;
  revenue_df : DataFrame Revenue.row
}.

(** [main], lines 361-385, without the file writes. *)
Definition main : G Tables :=
  tourism <- generate_tourism_dataset ;;
  hotel <- generate_hotel_bookings_dataset tourism ;;
  flight <- generate_flight_data_dataset tourism ;;
  revenue <- generate_tourism_revenue_dataset tourism ;;
  ret (mkTables tourism hotel flight revenue).

(** One run of the script: the module seeds the random state when it is
    loaded (lines 7-9, the constant 42) and then calls [main].  The seed
    is a parameter here; the program is [run 42]. *)
Definition run (seed : Z) : result Tables :=
  match main (np_seed seed) with
  | Ok (tables, _) => Ok tables
  | Raise e => Raise e
  end.

End Generator.


(** ** The compatibility verifier *)

Module Verifier.

(** A value of a result cell. *)
Inductive value : Type :=
| VInt (n : Z)
| VReal (x : Q)
| VText (s : string)
| VNull.

(** The frame that [pd.read_sql_query] returns: rows of cells, in the
    order of the columns of the [SELECT]. *)
Definition Frame : Type := list (list value).

(** The queries of the fixed battery, by the check that issues them. *)
Inductive query : Type :=
| BasicSelect       (* test 1: SELECT COUNT( * ) as total_records *)
| YearRange         (* test 2: SELECT MAX(Year) as max_year *)
| PeakOffSeason     (* test 3: AVG of the peak and off-season columns by country *)
| GrowthRate        (* test 4: yearly arrivals by country from 2020 on *)
| Regional          (* test 5: number of countries by region *)
| Solution1         (* market positioning: countries with three full years *)
| Solution3         (* seasonal arbitrage: averages by country, HAVING avg_off > 0 *)
| Solution4         (* market concentration: rows of the last year by country *)
| MissingValues     (* data quality: totals and NULL counts *)
| YearSpan          (* data quality: MIN, MAX and number of years *)
| Coverage.         (* data quality: numbers of countries and regions *)

(** What executing a query does: a frame, or an exception with its
    message. *)
Inductive outcome : Type :=
| Rows (frame : Frame)
| Error (msg : string).

(** The store behind [conn]. *)
Class Connection (conn : Type) : Type := {
  read_sql_query : query -> conn -> outcome
}.

(** What the verifier prints, line by line. *)
Inductive event : Type :=
| Passed (q : query) (detail : list value)   (* a line starting with the check mark *)
| Failed (q : query) (msg : string)          (* a line starting with the cross *)
| Line (cells : list value)                  (* an indented detail line *)
| MissingInput                               (* the CSV file is not there *)
| BasicTestsPassed
| BasicTestsFailed
| ScriptWritten
| Compatible.

(** How [main] ends. *)
Inductive exit : Type :=
| Finished                  (* ran to the last line *)
| Returned                  (* an early [return] *)
| Uncaught (msg : string).  (* an exception left [main] *)

(** The [IndexError] of [.iloc[0]] on an empty frame. *)
Definition index_error : string := "single positional indexer is out-of-bounds".

(** [result[column].iloc[0]] on a frame of one column of interest. *)
Definition iloc0 (column : nat) (frame : Frame) : option value :=
  match frame with
  | row :: _ => nth_error row column
  | [] => None
  end.

Definition frame_len (frame : Frame) : value := VInt (Z.of_nat (length frame)).

Section Checks.

Context {conn : Type} {C : Connection conn}.

(** One [try: ... except Exception as e: print(...)] block around a
    query: the lines it prints, and whether the [try] part completed.
    [report] is the part of the block after the query; [None] is an
    exception raised there. *)
Definition try_query (q : query) (c : conn)
    (report : Frame -> option (list event)) : bool * list event :=
  match read_sql_query q c with
  | Error msg => (false, [Failed q msg])
  | Rows frame =>
      match report frame with
      | Some lines => (true, lines)
      | None =>
          (false, [Failed q index_error])
      end
  end.

Definition report_cell (q : query) (frame : Frame) : option (list event) :=
  match iloc0 0 frame with
  | Some v => Some [Passed q [v]]
  | None => None
  end.

Definition report_len (q : query) (frame : Frame) : option (list event) :=
  Some [Passed q [frame_len frame]].

Definition report_regions (frame : Frame) : option (list event) :=
  Some (Passed Regional [frame_len frame] :: map Line frame).

(** [test_sql_compatibility], lines 26-91: every [except] branch
    returns [False]. *)
Definition test_sql_compatibility (c : conn) : bool * list event :=
  let '(ok1, log1) := try_query BasicSelect c (report_cell BasicSelect) in
  if negb ok1 then (false, log1) else
  let '(ok2, log2) := try_query YearRange c (report_cell YearRange) in
  if negb ok2 then (false, log1 ++ log2) else
  let '(ok3, log3) := try_query PeakOffSeason c (report_len PeakOffSeason) in
  if negb ok3 then (false, log1 ++ log2 ++ log3) else
  let '(ok4, log4) := try_query GrowthRate c (report_len GrowthRate) in
  if negb ok4 then (false, log1 ++ log2 ++ log3 ++ log4) else
  let '(ok5, log5) := try_query Regional c report_regions in
  if negb ok5 then (false, log1 ++ log2 ++ log3 ++ log4 ++ log5) else
  (true, log1 ++ log2 ++ log3 ++ log4 ++ log5).

(** [test_specific_sql_solutions], lines 93-153: the [except] branches
    only print. *)
Definition test_specific_sql_solutions (c : conn) : list event :=
  let '(_, log1) := try_query Solution1 c (report_len Solution1) in
  let '(_, log3) := try_query Solution3 c (report_len Solution3) in
  let '(_, log4) := try_query Solution4 c (report_len Solution4) in
  log1 ++ log3 ++ log4.

(** [analyze_data_quality], lines 155-193: the queries are outside any
    [try], so an exception leaves the function; [Some msg] is that
    exception. *)
Definition analyze_data_quality (c : conn) : list event * option string :=
  match read_sql_query MissingValues c with
  | Error msg => ([], Some msg)
  | Rows quality =>
      match hd_error quality with
      | None => ([], Some index_error)
      | Some cells1 =>
          match read_sql_query YearSpan c with
          | Error msg => ([Line cells1], Some msg)
          | Rows span =>
              match hd_error span with
              | None => ([Line cells1], Some index_error)
              | Some cells2 =>
                  match read_sql_query Coverage c with
                  | Error msg => ([Line cells1; Line cells2], Some msg)
                  | Rows coverage =>
                      match hd_error coverage with
                      | None => ([Line cells1; Line cells2], Some index_error)
                      | Some cells3 =>
                          ([Line cells1; Line cells2; Line cells3], None)
                      end
                  end
              end
          end
      end
  end.

(** [main], lines 256-299.  [csv] is the connection that
    [create_test_database] makes from the CSV file, [None] when the
    file does not exist. *)
Definition main (csv : option conn) : list event * exit :=
  match csv with
  | None => ([MissingInput], Returned)
  | Some c =>
      let '(ok, log) := test_sql_compatibility c in
      if ok then
        let log := log ++ [BasicTestsPassed] in
        let log := log ++ test_specific_sql_solutions c in
        match analyze_data_quality c with
        | (lines, Some msg) => (log ++ lines, Uncaught msg)
        | (lines, None) => (log ++ lines ++ [ScriptWritten; Compatible], Finished)
        end
      else (log ++ [BasicTestsFailed], Returned)
  end.

End Checks.

(** *** The store that [create_test_database] loads

    The table [Tourism_Arrivals] as SQLite has it after
    [DataFrame.to_sql]: the columns of the CSV file and its rows.  A query
    that names a column the table does not have raises; otherwise it
    is evaluated over the rows.  Groups come out in the order of their
    first row. *)
Record Store : Type := mkStore {
  columns : list string;
  rows : list ArrivalRecord
}.

Definition all_columns : list string :=
  ["Country"; "Country_Code"; "Region"; "Year"; "Month"; "Arrivals";
   "Arrivals_Growth_Rate"; "Arrivals_Per_Capita"; "Source_Market_Diversity";
   "Peak_Season_Arrivals"; "Off_Season_Arrivals"; "Population";
   "GDP_Per_Capita"; "Tourism_Maturity"].

(** The columns a query names. *)
Definition needs (q : query) : list string :=
  match q with
  | BasicSelect => []
  | YearRange => ["Year"]
  | PeakOffSeason => ["Country"; "Peak_Season_Arrivals"; "Off_Season_Arrivals"]
  | GrowthRate => ["Country"; "Year"; "Arrivals"]
  | Regional => ["Region"; "Country"]
  | Solution1 => ["Country"; "Year"; "Arrivals"]
  | Solution3 => ["Country"; "Peak_Season_Arrivals"; "Off_Season_Arrivals"]
  | Solution4 => ["Country"; "Year"]
  | MissingValues => ["Arrivals"; "Peak_Season_Arrivals"; "Off_Season_Arrivals"]
  | YearSpan => ["Year"]
  | Coverage => ["Country"; "Region"]
  end.

Fixpoint distinct {A} (eqb : A -> A -> bool) (l : list A) : list A :=
  match l with
  | [] => []
  | a :: l' => a :: filter (fun b => negb (eqb a b)) (distinct eqb l')
  end.

Definition count {A} (l : list A) : value := VInt (Z.of_nat (length l)).

Definition sum (l : list Z) : Z := fold_right Z.add 0%Z l.

(** [AVG] over a group, and [MAX], [MIN], [SUM] over a table: [NULL]
    when there is no row. *)
Definition avg (l : list Z) : value :=
  match l with
  | [] => VNull
  | _ => VReal (inject_Z (sum l) / inject_Z (Z.of_nat (length l)))
  end.

Definition max_of (l : list Z) : option Z :=
  match l with
  | [] => None
  | a :: l' => Some (fold_right Z.max a l')
  end.

Definition min_of (l : list Z) : option Z :=
  match l with
  | [] => None
  | a :: l' => Some (fold_right Z.min a l')
  end.

Definition cell (o : option Z) : value :=
  match o with Some n => VInt n | None => VNull end.

Definition of_country (country : string) (t : list ArrivalRecord)
  : list ArrivalRecord :=
  filter (fun r => String.eqb (Country r) country) t.

Definition countries_of (t : list ArrivalRecord) : list string :=
  distinct String.eqb (map Country t).

Definition country_years (t : list ArrivalRecord) : list (string * Z) :=
  distinct (fun a b => String.eqb (fst a) (fst b) && Z.eqb (snd a) (snd b))
           (map (fun r => (Country r, Year r)) t).

Definition of_country_year (cy : string * Z) (t : list ArrivalRecord)
  : list ArrivalRecord :=
  filter (fun r => String.eqb (Country r) (fst cy) && Z.eqb (Year r) (snd cy)) t.

Definition positive (v : value) : bool :=
  match v with
  | VInt n => (0 <? n)%Z
  | VReal x => negb (Qle_bool x 0)
  | _ => false
  end.

(** The frame of each query over the rows [t]. *)
Definition eval (q : query) (t : list ArrivalRecord) : Frame :=
  match q with
  | BasicSelect => [[count t]]
  | YearRange => [[cell (max_of (map Year t))]]
  | PeakOffSeason =>
      firstn 5
        (map (fun c => [VText c;
                        avg (map Peak_Season_Arrivals (of_country c t));
                        avg (map Off_Season_Arrivals (of_country c t))])
             (countries_of t))
  | GrowthRate =>
      let recent := filter (fun r => (2020 <=? Year r)%Z) t in
      firstn 10
        (map (fun cy => [VText (fst cy); VInt (snd cy);
                         VInt (sum (map Arrivals (of_country_year cy recent)))])
             (country_years recent))
  | Regional =>
      map (fun g => [VText g;
                     count (countries_of
                              (filter (fun r => String.eqb (Region r) g) t))])
          (distinct String.eqb (map Region t))
  | Solution1 =>
      match max_of (map Year t) with
      | None => []
      | Some last =>
          let recent := filter (fun r => (last - 2 <=? Year r)%Z) t in
          let yearly := country_years recent in
          let complete :=
            filter (fun c => Nat.eqb
                               (length (filter (fun cy => String.eqb (fst cy) c) yearly))
                               3)
                   (distinct String.eqb (map fst yearly)) in
          firstn 5
            (map (fun c => [VText c;
                            count (filter (fun cy => String.eqb (fst cy) c) yearly)])
                 complete)
      end
  | Solution3 =>
      firstn 5
        (filter (fun row => match nth_error row 2 with
                            | Some v => positive v
                            | None => false
                            end)
           (map (fun c => [VText c;
                           avg (map Peak_Season_Arrivals (of_country c t));
                           avg (map Off_Season_Arrivals (of_country c t))])
                (countries_of t)))
  | Solution4 =>
      match max_of (map Year t) with
      | None => []
      | Some last =>
          let latest := filter (fun r => Z.eqb (Year r) last) t in
          firstn 5
            (map (fun c => [VText c; count (of_country c latest)])
                 (countries_of latest))
      end
  | MissingValues =>
      match t with
      | [] => [[VInt 0; VNull; VNull; VNull]]
      | _ => [[count t; VInt 0; VInt 0; VInt 0]]
      end
  | YearSpan =>
      [[cell (min_of (map Year t)); cell (max_of (map Year t));
        count (distinct Z.eqb (map Year t))]]
  | Coverage =>
      [[count (countries_of t); count (distinct String.eqb (map Region t))]]
  end.

Definition missing_column (q : query) (store : Store) : option string :=
  find (fun c => negb (existsb (String.eqb c) (columns store))) (needs q).

#[global] Instance sqlite : Connection Store := {|
  read_sql_query := fun q store =>
    match missing_column q store with
    | Some c => Error ("no such column: " ++ c)
    | None => Rows (eval q (rows store))
    end
|}.

End Verifier.
(** ** Vocabulary of the statements *)

(** What a run returns when [d] is put in front of the rows it made. *)
Definition prepend {rng R} (d : list R) (r : result (list R * rng))
  : result (list R * rng) :=
  match r with
  | Ok (rows, s) => Ok (d ++ rows, s)
  | Raise e => Raise e
  end.

(** A loop body that only appends to its accumulator: what it appends,
    and the state it leaves, do not depend on the accumulator. *)
Definition appends {rng X R} (body : X -> list R -> M rng (list R)) : Prop :=
  forall x d s, body x d s = prepend d (body x [] s).

(** [m] cannot raise, and what it returns satisfies [P]. *)
Definition yields {rng A} (m : M rng A) (P : A -> Prop) : Prop :=
  forall s, exists a s', m s = Ok (a, s') /\ P a.

(** The reference data is complete for a year, a month of a seasonal
    pattern, a country: the lookups and divisions of the generator succeed. *)
Definition year_ok (year : Z) : bool :=
  match assoc Z.eqb year_multipliers year with
  | Some _ =>
      if (year >? 2018)%Z then
        match assoc Z.eqb year_multipliers (year - 1)%Z with
        | Some prev => negb (Qeq_bool prev 0)
        | None => false
        end
      else true
  | None => false
  end.

Definition month_ok (pattern : list Q) (month : Z) : bool :=
  match index pattern (month - 1)%Z with Some _ => true | None => false end.

Definition country_ok (country_info : CountryInfo) : bool :=
  match assoc String.eqb regional_multipliers (region country_info),
        assoc String.eqb seasonal_patterns (region country_info) with
  | Some _, Some pattern =>
      forallb (month_ok pattern) months &&
      negb (Qeq_bool (inject_Z (population country_info)) 0)
  | _, _ => false
  end.

Section Drawn.

Context {rng : Type} {RS : RandomState rng}.

(** The growth rate of a record of [year], before it is rounded for
    storage: what lines 176-181 assign to [growth_rate]. *)
Definition growth_drawn (year : Z) (year_multiplier g : Q) : Prop :=
  if (year >? 2018)%Z then
    exists prev s,
      assoc Z.eqb year_multipliers (year - 1)%Z = Some prev /\
      Qeq_bool prev 0 = false /\
      g = (year_multiplier - prev) / prev * 100 + fst (np_normal 0 5 s)
  else
    exists s, g = fst (np_normal 2 3 s).

(** [r] is a record that the loop body makes for this country, year and
    month, from some state of the random source. *)
Definition drawn (country : string) (country_info : CountryInfo)
    (base_arrivals : Q) (year : Z) (year_multiplier : Q) (month : Z)
    (r : ArrivalRecord) : Prop :=
  exists pattern seasonal_multiplier s g,
    assoc String.eqb seasonal_patterns (region country_info) = Some pattern /\
    index pattern (month - 1)%Z = Some seasonal_multiplier /\
    growth_drawn year year_multiplier g /\
    Qeq_bool (inject_Z (population country_info)) 0 = false /\
    let base_monthly := base_arrivals / 12 * seasonal_multiplier * year_multiplier in
    let arrivals := Py.max 0 (base_monthly * (1 + fst (np_normal 0 0.1 s))) in
    Country r = country /\
    Country_Code r = Py.upper (Py.take 3 country) /\
    Region r = region country_info /\
    Year r = year /\
    Month r = month /\
    Arrivals r = Py.int arrivals /\
    Arrivals_Growth_Rate r = Py.round g 1 /\
    Arrivals_Per_Capita r =
      Py.round (arrivals / inject_Z (population country_info)) 6 /\
    Population r = population country_info /\
    GDP_Per_Capita r = gdp_per_capita country_info /\
    Tourism_Maturity r = tourism_maturity country_info.

(** The slots of the base table, in the order the loops visit them. *)
Definition Slot : Type := (string * CountryInfo * Z * Z)%type.

Definition country_slots (item : string * CountryInfo) : list Slot :=
  flat_map (fun year => map (fun month => (item, year, month)) months) years.

Definition grid (countries : list (string * CountryInfo)) : list Slot :=
  flat_map country_slots countries.

Definition slot_key (slot : Slot) : Key :=
  let '(item, year, month) := slot in (fst item, year, month).

(** [r] is a record made for the slot. *)
Definition row_of (slot : Slot) (r : ArrivalRecord) : Prop :=
  let '(item, year, month) := slot in
  exists multiplier year_multiplier,
    assoc String.eqb regional_multipliers (region (snd item)) = Some multiplier /\
    assoc Z.eqb year_multipliers year = Some year_multiplier /\
    drawn (fst item) (snd item) (maturity_base (snd item) * multiplier)
          year year_multiplier month r.

End Drawn.

(** Equality test on keys, and a duplicate check on lists of keys. *)
Definition key_eqb (k1 k2 : Key) : bool :=
  let '(c1, y1, m1) := k1 in
  let '(c2, y2, m2) := k2 in
  String.eqb c1 c2 && Z.eqb y1 y2 && Z.eqb m1 m2.

Fixpoint nodupb (l : list Key) : bool :=
  match l with
  | [] => true
  | k :: l' => negb (existsb (key_eqb k) l') && nodupb l'
  end.

(** The number of rows of a table for one country. *)
Definition rows_of_country (country : string) (keys : list Key) : nat :=
  length (filter (fun k => String.eqb (fst (fst k)) country) keys).

(** A random source that always returns the mean of the distribution:
    [mu] for a normal draw, the midpoint for a uniform one.  A draw of
    [N(0, 0.1)] is then a zero perturbation. *)
#[local] Instance mean_source : RandomState unit := {|
  np_seed := fun _ => tt;
  np_normal := fun mu _ st => (mu, st);
  np_uniform := fun low high st => ((low + high) / 2, st)
|}.

(** [numpy.isclose(a, b)] with its default tolerances,
    [rtol = 1e-05] and [atol = 1e-08]: the most lenient of the usual
    floating-point comparisons. *)
Definition isclose (a b : Q) : Prop :=
  Qabs (a - b) <= (1 # 100000000) + (1 # 100000) * Qabs b.

(** The stored per-capita field agrees with the stored arrivals over the
    stored population, up to floating-point tolerance. *)
Definition per_capita_consistent (r : ArrivalRecord) : Prop :=
  isclose (Arrivals_Per_Capita r) (inject_Z (Arrivals r) / inject_Z (Population r)).

(** The maturity factor and the monthly arrivals before perturbation, as
    the specification words them. *)
Definition maturity_factor (maturity : string) : Q :=
  if String.eqb maturity "mature" then 1.5
  else if String.eqb maturity "emerging" then 0.8
  else 1.

Definition monthly_arrivals (population : Z)
    (maturity regional seasonal yearly : Q) : Q :=
  inject_Z population * 0.1 * maturity * regional / 12 * seasonal * yearly.

(** Two runs, each with its own random state, that see the same draws:
    [R] relates the states of the two sources at corresponding points. *)
Section TwoRuns.

Context {rng1 rng2 : Type} (R : rng1 -> rng2 -> Prop).

Definition same_outcome {A} (r1 : result (A * rng1)) (r2 : result (A * rng2))
  : Prop :=
  match r1, r2 with
  | Ok (a1, s1), Ok (a2, s2) => a1 = a2 /\ R s1 s2
  | Raise e1, Raise e2 => e1 = e2
  | _, _ => False
  end.

Definition same_run {A} (m1 : M rng1 A) (m2 : M rng2 A) : Prop :=
  forall s1 s2, R s1 s2 -> same_outcome (m1 s1) (m2 s2).

(** The two sources draw the same values from related states. *)
Definition same_draws (RS1 : RandomState rng1) (RS2 : RandomState rng2) : Prop :=
  (forall mu sigma s1 s2,
      R s1 s2 ->
      fst (np_normal mu sigma s1) = fst (np_normal mu sigma s2) /\
      R (snd (np_normal mu sigma s1)) (snd (np_normal mu sigma s2))) /\
  (forall low high s1 s2,
      R s1 s2 ->
      fst (np_uniform low high s1) = fst (np_uniform low high s2) /\
      R (snd (np_uniform low high s1)) (snd (np_uniform low high s2))).

End TwoRuns.

(** *** The arrivals arithmetic on binary64 floats

    Lines 112-116, 134 and 169-173 of the generator with Python's own
    float arithmetic, to replay the concrete scenarios without the
    idealisation of floats as rationals. *)
Module Binary64.

Import PrimFloat.
Local Open Scope float_scope.
Set Warnings "-inexact-float".

Definition arrivals (population maturity regional seasonal yearly variation : float)
  : float :=
  let base_arrivals := population * 0.1 in
  let base_arrivals := base_arrivals * maturity in
  let base_arrivals := base_arrivals * regional in
  let base_monthly := base_arrivals / 12 * seasonal * yearly in
  let perturbed := base_monthly * (1 + variation) in
  if 0 <? perturbed then perturbed else 0.

(** [numpy.isclose(a, b)] with its default tolerances. *)
Definition isclose (a b : float) : bool :=
  abs (a - b) <=? 1e-8 + 1e-5 * abs b.

End Binary64.

(** *** Vocabulary for the verifier *)

Module VerifierSpec.

Import Verifier.

(** The check a printed line is about. *)
Definition about (e : event) : option query :=
  match e with
  | Passed q _ => Some q
  | Failed q _ => Some q
  | _ => None
  end.

(** The check [q] was run: the log has its line. *)
Definition ran (q : query) (log : list event) : Prop :=
  exists e, In e log /\ about e = Some q.

(** A battery: queries with the report that follows each. *)
Definition Battery : Type := list (query * (Frame -> option (list event))).

Definition basic_battery : Battery :=
  [ (BasicSelect, report_cell BasicSelect);
    (YearRange, report_cell YearRange);
    (PeakOffSeason, report_len PeakOffSeason);
    (GrowthRate, report_len GrowthRate);
    (Regional, report_regions) ].

Definition solution_battery : Battery :=
  [ (Solution1, report_len Solution1);
    (Solution3, report_len Solution3);
    (Solution4, report_len Solution4) ].

Definition query_eqb (a b : query) : bool :=
  match a, b with
  | BasicSelect, BasicSelect | YearRange, YearRange
  | PeakOffSeason, PeakOffSeason | GrowthRate, GrowthRate
  | Regional, Regional | Solution1, Solution1 | Solution3, Solution3
  | Solution4, Solution4 | MissingValues, MissingValues
  | YearSpan, YearSpan | Coverage, Coverage => true
  | _, _ => false
  end.

(** The checks that follow [q] in a list of checks. *)
Fixpoint after (q : query) (l : list query) : list query :=
  match l with
  | [] => []
  | x :: l' => if query_eqb x q then l' else after q l'
  end.

(** The report of a check prints lines about that check only, and at
    least one. *)
Definition own_lines (check : query * (Frame -> option (list event))) : Prop :=
  forall frame lines,
    snd check frame = Some lines ->
    Forall (fun e => about e = Some (fst check) \/ about e = None) lines /\
    ran (fst check) lines.

Section Policies.

Context {conn : Type} {C : Connection conn}.

(** Stop at the first check that fails. *)
Fixpoint gate (checks : Battery) (c : conn) : bool * list event :=
  match checks with
  | [] => (true, [])
  | (q, report) :: rest =>
      let '(ok, log) := try_query q c report in
      if ok then
        let '(ok', log') := gate rest c in (ok', log ++ log')
      else (false, log)
  end.

(** Run every check, whatever the others did. *)
Definition run_all (checks : Battery) (c : conn) : list event :=
  flat_map (fun check => snd (try_query (fst check) c (snd check))) checks.

(** The verifier stopped right after the count check: no later check
    of any battery was run. *)
Definition halts_after_count (c : conn) : Prop :=
  forall q, q <> BasicSelect -> ~ ran q (fst (main (Some c))).

(** A failure of [q] is reported and the other checks still run. *)
Definition failure_is_local (c : conn) (q : query) (msg : string) : Prop :=
  In (Failed q msg) (fst (main (Some c))) /\
  forall q', In q' (map fst (basic_battery ++ solution_battery)) ->
             ran q' (fst (main (Some c))).

End Policies.

(** The table with every column and no row. *)
Definition empty_store : Store := mkStore all_columns [].

(** A table that lacks the column [Peak_Season_Arrivals]. *)
Definition store_without_peak : Store :=
  mkStore ["Country"; "Country_Code"; "Region"; "Year"; "Month"; "Arrivals";
           "Arrivals_Growth_Rate"; "Arrivals_Per_Capita";
           "Source_Market_Diversity"; "Off_Season_Arrivals"; "Population";
           "GDP_Per_Capita"; "Tourism_Maturity"]
          [].

End VerifierSpec.

(** ** Reasoning about the generator monad and its loops *)

Lemma bind_Ok {rng A B} (m : M rng A) (k : A -> M rng B) s r :
  bind m k s = Ok r -> exists a s1, m s = Ok (a, s1) /\ k a s1 = Ok r.
Proof.
  unfold bind. destruct (m s) as [[a s1] | e]; [eauto | discriminate].
Qed.

Lemma bind_step {rng A B} (m : M rng A) (k : A -> M rng B) s a s1 :
  m s = Ok (a, s1) -> bind m k s = k a s1.
Proof. unfold bind. intros ->. reflexivity. Qed.

Lemma draw_Ok {rng A} (f : rng -> A * rng) s a s1 :
  draw f s = Ok (a, s1) -> a = fst (f s) /\ s1 = snd (f s).
Proof. unfold draw. intros [= E]. rewrite E. auto. Qed.

Lemma dict_get_Ok {rng K V} eqb (d : list (K * V)) k (s : rng) v s1 :
  dict_get eqb d k s = Ok (v, s1) -> assoc eqb d k = Some v /\ s1 = s.
Proof.
  unfold dict_get. destruct (assoc eqb d k); [ | discriminate ].
  intros [= -> ->]. auto.
Qed.

Lemma list_get_Ok {rng V} (l : list V) i (s : rng) v s1 :
  list_get l i s = Ok (v, s1) -> index l i = Some v /\ s1 = s.
Proof.
  unfold list_get. destruct (index l i); [ | discriminate ].
  intros [= -> ->]. auto.
Qed.

Lemma py_div_Ok {rng} x y (s : rng) q s1 :
  py_div x y s = Ok (q, s1) -> Qeq_bool y 0 = false /\ q = x / y /\ s1 = s.
Proof.
  unfold py_div. destruct (Qeq_bool y 0); [ discriminate | ].
  intros [= <- <-]. auto.
Qed.

Section Loops.

Context {rng X R : Type}.

Implicit Types (body : X -> list R -> M rng (list R)) (xs : list X)
  (res : result (list R * rng)).

Lemma prepend_nil res : prepend [] res = res.
Proof. destruct res as [[rows s] | e]; reflexivity. Qed.

Lemma prepend_prepend d1 d2 res :
  prepend d1 (prepend d2 res) = prepend (d1 ++ d2) res.
Proof. destruct res as [[rows s] | e]; simpl; [ rewrite app_assoc | ]; reflexivity. Qed.

Lemma for_each_appends body :
  appends body ->
  forall xs d s, for_each body xs d s = prepend d (for_each body xs [] s).
Proof.
  intros Hb xs. induction xs as [ | x xs IH]; intros d s; simpl.
  - unfold ret. simpl. rewrite app_nil_r. reflexivity.
  - unfold bind. rewrite (Hb x d s).
    destruct (body x [] s) as [[r1 s1] | e]; simpl; [ | reflexivity ].
    rewrite (IH (d ++ r1)), (IH r1), prepend_prepend. reflexivity.
Qed.

Lemma for_each_cons_Ok body x xs s out s' :
  appends body ->
  for_each body (x :: xs) [] s = Ok (out, s') ->
  exists r1 s1 r2,
    body x [] s = Ok (r1, s1) /\ for_each body xs [] s1 = Ok (r2, s') /\
    out = r1 ++ r2.
Proof.
  intros Hb H. simpl in H. apply bind_Ok in H. destruct H as (r1 & s1 & H1 & H2).
  rewrite (for_each_appends body Hb) in H2.
  destruct (for_each body xs [] s1) as [[r2 s2] | e] eqn:E; simpl in H2;
    [ | discriminate ].
  injection H2 as <- <-. exists r1, s1, r2. auto.
Qed.

(** Every chunk of the output is what the body made for its item. *)
Lemma for_each_Forall2 {I : Type} (g : X -> list I) (Q : I -> R -> Prop) body :
  appends body ->
  (forall x s rows s', body x [] s = Ok (rows, s') -> Forall2 Q (g x) rows) ->
  forall xs s out s',
    for_each body xs [] s = Ok (out, s') -> Forall2 Q (flat_map g xs) out.
Proof.
  intros Hb Hq xs. induction xs as [ | x xs IH]; intros s out s' H.
  - simpl in H. injection H as <- <-. constructor.
  - apply (for_each_cons_Ok body x xs s out s' Hb) in H.
    destruct H as (r1 & s1 & r2 & H1 & H2 & ->).
    simpl. apply Forall2_app; eauto.
Qed.

End Loops.

Lemma bind_prepend {rng A R} (m : M rng A) (k1 k2 : A -> M rng (list R)) d s :
  (forall a s1, k1 a s1 = prepend d (k2 a s1)) ->
  bind m k1 s = prepend d (bind m k2 s).
Proof.
  intros Hk. unfold bind. destruct (m s) as [[a s1] | e]; [ apply Hk | reflexivity ].
Qed.

Lemma ret_prepend {rng R} (d rows : list R) (s : rng) :
  ret (d ++ rows) s = prepend d (ret ([] ++ rows) s).
Proof. reflexivity. Qed.

(** Takes a successful run of a monadic body apart, one bind at a time. *)
Ltac inv_run :=
  repeat match goal with
    | H : bind _ _ _ = Ok _ |- _ =>
        let a := fresh "a" in let s := fresh "s" in let E := fresh "E" in
        apply bind_Ok in H; destruct H as (a & s & E & H)
    | H : dict_get _ _ _ _ = Ok _ |- _ =>
        let E := fresh "E" in apply dict_get_Ok in H; destruct H as [E ->]
    | H : list_get _ _ _ = Ok _ |- _ =>
        let E := fresh "E" in apply list_get_Ok in H; destruct H as [E ->]
    | H : py_div _ _ _ = Ok _ |- _ =>
        let E := fresh "E" in apply py_div_Ok in H; destruct H as (E & -> & ->)
    | H : draw _ _ = Ok _ |- _ =>
        apply draw_Ok in H; destruct H as [-> ->]
    | H : ret _ _ = Ok _ |- _ =>
        unfold ret in H; injection H as <- <-
    end.

(** Shows that a body only appends, one bind at a time. *)
Ltac prove_appends :=
  repeat (apply bind_prepend; intros);
  try apply ret_prepend.

Lemma yields_ret {rng A} (a : A) (P : A -> Prop) : P a -> yields (rng := rng) (ret a) P.
Proof. intros Ha s. exists a, s. auto. Qed.

Lemma yields_bind {rng A B} (m : M rng A) (k : A -> M rng B) P Q :
  yields m P -> (forall a, P a -> yields (k a) Q) -> yields (bind m k) Q.
Proof.
  intros Hm Hk s. destruct (Hm s) as (a & s1 & E & Ha).
  rewrite (bind_step _ _ _ _ _ E). apply Hk. exact Ha.
Qed.

Lemma yields_draw {rng A} (f : rng -> A * rng) : yields (draw f) (fun _ => True).
Proof. intros s. unfold draw. destruct (f s) as [a s1]. eauto. Qed.

Lemma yields_dict_get {rng K V} eqb (d : list (K * V)) k v :
  assoc eqb d k = Some v -> yields (rng := rng) (dict_get eqb d k) (eq v).
Proof. intros E s. unfold dict_get. rewrite E. exists v, s. auto. Qed.

Lemma yields_list_get {rng V} (l : list V) i v :
  index l i = Some v -> yields (rng := rng) (list_get l i) (eq v).
Proof. intros E s. unfold list_get. rewrite E. exists v, s. auto. Qed.

Lemma yields_py_div {rng} x y :
  Qeq_bool y 0 = false -> yields (rng := rng) (py_div x y) (fun _ => True).
Proof. intros E s. unfold py_div. rewrite E. exists (x / y), s. auto. Qed.

Lemma yields_weaken {rng A} (m : M rng A) (P Q : A -> Prop) :
  yields m P -> (forall a, P a -> Q a) -> yields m Q.
Proof.
  intros Hm HPQ s. destruct (Hm s) as (a & s1 & E & Ha). eauto.
Qed.

Lemma yields_for_each {rng X D} (body : X -> D -> M rng D) xs :
  (forall x, In x xs -> forall d, yields (body x d) (fun _ => True)) ->
  forall d, yields (for_each body xs d) (fun _ => True).
Proof.
  induction xs as [ | x xs IH]; intros Hb d; simpl.
  - apply yields_ret. exact I.
  - apply yields_bind with (P := fun _ => True).
    + apply Hb. left. reflexivity.
    + intros d1 _. apply IH. intros y Hy. apply Hb. right. exact Hy.
Qed.

Lemma Forall2_map_l {A B C} (f : A -> B) (Q : B -> C -> Prop) l l' :
  Forall2 (fun a c => Q (f a) c) l l' -> Forall2 Q (map f l) l'.
Proof. induction 1; simpl; constructor; assumption. Qed.

Lemma flat_map_singleton {A} (l : list A) : flat_map (fun a => [a]) l = l.
Proof. induction l as [ | a l IH]; simpl; [ | rewrite IH ]; reflexivity. Qed.

Lemma Forall2_Forall_r {A B} (Q : A -> B -> Prop) (P : B -> Prop) l l' :
  Forall2 Q l l' -> (forall a b, Q a b -> P b) -> Forall P l'.
Proof. induction 1; intros HP; constructor; eauto. Qed.

Lemma Forall2_map_eq {A B C} (f : A -> C) (g : B -> C) (Q : A -> B -> Prop) l l' :
  Forall2 Q l l' -> (forall a b, Q a b -> g b = f a) -> map g l' = map f l.
Proof. induction 1; intros HQ; simpl; [ | rewrite IHForall2, (HQ x y) ]; auto. Qed.

Lemma Forall2_In_l {A B} (Q : A -> B -> Prop) l l' a :
  Forall2 Q l l' -> In a l -> exists b, In b l' /\ Q a b.
Proof.
  induction 1 as [ | x y l l' Hxy H IH]; intros Hin; [ destruct Hin | ].
  destruct Hin as [<- | Hin].
  - exists y. split; [ left; reflexivity | assumption ].
  - destruct (IH Hin) as (b & Hb & Hq). exists b. split; [ right | ]; assumption.
Qed.

Section GeneratorFacts.

Context {rng : Type} {RS : RandomState rng}.

Lemma month_body_appends country country_info base_arrivals year ym :
  appends (month_body country country_info base_arrivals year ym).
Proof. intros month d s. unfold month_body. prove_appends. Qed.

Lemma month_body_Ok country country_info base_arrivals year ym month s rows s' :
  month_body country country_info base_arrivals year ym month [] s = Ok (rows, s') ->
  exists r, rows = [r] /\ drawn country country_info base_arrivals year ym month r.
Proof.
  unfold month_body. intros H.
  apply bind_Ok in H. destruct H as (pattern & s1 & Ep & H).
  apply dict_get_Ok in Ep. destruct Ep as [Ep ->].
  apply bind_Ok in H. destruct H as (sm & s1 & Es & H).
  apply list_get_Ok in Es. destruct Es as [Es ->].
  apply bind_Ok in H. destruct H as (v & s1 & Ev & H).
  apply draw_Ok in Ev. destruct Ev as [-> ->].
  apply bind_Ok in H. destruct H as (g & s2 & Eg & H).
  assert (Hg : growth_drawn year ym g).
  { clear H. unfold growth_drawn. destruct (year >? 2018)%Z.
    - inv_run.
      match goal with
      | H1 : assoc _ _ ?k = Some ?p, H2 : assoc _ _ ?k = Some ?q |- _ =>
          rewrite H1 in H2; injection H2 as <-
      end.
      eauto.
    - apply draw_Ok in Eg. destruct Eg as [-> _]. eauto. }
  clear Eg. inv_run.
  eexists. split; [ reflexivity | ].
  exists pattern, sm, s, g. simpl. repeat split; assumption.
Qed.

Lemma month_body_total country country_info base_arrivals year ym month pattern sm :
  assoc String.eqb seasonal_patterns (region country_info) = Some pattern ->
  index pattern (month - 1)%Z = Some sm ->
  (if (year >? 2018)%Z
   then exists prev, assoc Z.eqb year_multipliers (year - 1)%Z = Some prev /\
                     Qeq_bool prev 0 = false
   else True) ->
  Qeq_bool (inject_Z (population country_info)) 0 = false ->
  forall d,
    yields (month_body country country_info base_arrivals year ym month d)
           (fun _ => True).
Proof.
  intros Ep Es Hy Hpop d. unfold month_body.
  eapply yields_bind; [ apply yields_dict_get, Ep | intros ? <- ].
  eapply yields_bind; [ apply yields_list_get, Es | intros ? <- ].
  eapply yields_bind; [ apply yields_draw | intros v _ ].
  eapply yields_bind with (P := fun _ => True).
  { destruct (year >? 2018)%Z.
    - destruct Hy as (prev & E1 & E2).
      eapply yields_bind; [ apply yields_dict_get, E1 | intros ? <- ].
      eapply yields_bind; [ apply yields_dict_get, E1 | intros ? <- ].
      eapply yields_bind; [ apply yields_py_div, E2 | intros ratio _ ].
      eapply yields_bind; [ apply yields_draw | intros noise _ ].
      apply yields_ret. exact I.
    - apply yields_draw. }
  intros g _.
  eapply yields_bind; [ apply yields_py_div, Hpop | intros apc _ ].
  eapply yields_bind; [ apply yields_draw | intros sd _ ].
  eapply yields_bind; [ apply yields_draw | intros pn _ ].
  eapply yields_bind; [ apply yields_draw | intros opn _ ].
  apply yields_ret. exact I.
Qed.

Lemma year_body_appends country country_info base_arrivals :
  appends (year_body country country_info base_arrivals).
Proof.
  intros year d s. unfold year_body. apply bind_prepend. intros ym s1.
  apply for_each_appends, month_body_appends.
Qed.

Lemma year_body_Ok country country_info base_arrivals year s rows s' :
  year_body country country_info base_arrivals year [] s = Ok (rows, s') ->
  exists ym,
    assoc Z.eqb year_multipliers year = Some ym /\
    Forall2 (drawn country country_info base_arrivals year ym) months rows.
Proof.
  unfold year_body. intros H.
  apply bind_Ok in H. destruct H as (ym & s1 & E & H).
  apply dict_get_Ok in E. destruct E as [E ->].
  exists ym. split; [ exact E | ].
  rewrite <- (flat_map_singleton months).
  eapply for_each_Forall2; [ apply month_body_appends | | exact H ].
  intros month s0 rows0 s0' H0. apply month_body_Ok in H0.
  destruct H0 as (r & -> & Hr). constructor; [ exact Hr | constructor ].
Qed.

Lemma country_body_appends : appends country_body.
Proof.
  intros item d s. unfold country_body. apply bind_prepend. intros m s1.
  apply for_each_appends, year_body_appends.
Qed.

Lemma country_body_Ok item s rows s' :
  country_body item [] s = Ok (rows, s') ->
  Forall2 row_of (country_slots item) rows.
Proof.
  unfold country_body. intros H.
  apply bind_Ok in H. destruct H as (multiplier & s1 & E & H).
  apply dict_get_Ok in E. destruct E as [E ->].
  eapply for_each_Forall2; [ apply year_body_appends | | exact H ].
  intros year s0 rows0 s0' H0. apply year_body_Ok in H0.
  destruct H0 as (ym & Ey & Hrows).
  apply Forall2_map_l. revert Hrows. apply Forall2_impl.
  intros month r Hr. exists multiplier, ym. auto.
Qed.

(** Whenever the generator returns, its table lines up with the grid. *)
Lemma generate_from_Ok countries s df s' :
  generate_from countries s = Ok (df, s') -> Forall2 row_of (grid countries) df.
Proof.
  unfold generate_from, grid.
  apply for_each_Forall2; [ apply country_body_appends | ].
  intros item s0 rows s0'. apply country_body_Ok.
Qed.

(** *** The reference data is complete: no lookup of the generator fails *)

Lemma years_ok : forallb year_ok years = true.
Proof. reflexivity. Qed.

Lemma countries_data_ok : forallb (fun item => country_ok (snd item)) countries_data = true.
Proof. vm_compute. reflexivity. Qed.

Lemma year_body_total country country_info base_arrivals year pattern :
  assoc String.eqb seasonal_patterns (region country_info) = Some pattern ->
  forallb (month_ok pattern) months = true ->
  Qeq_bool (inject_Z (population country_info)) 0 = false ->
  year_ok year = true ->
  forall d, yields (year_body country country_info base_arrivals year d)
                   (fun _ => True).
Proof.
  intros Ep Hm Hpop Hy d. unfold year_body, year_ok in *.
  destruct (assoc Z.eqb year_multipliers year) as [ym | ] eqn:Ey; [ | discriminate ].
  eapply yields_bind; [ apply yields_dict_get, Ey | intros ? <- ].
  apply yields_for_each. intros month Hin d1.
  rewrite forallb_forall in Hm. specialize (Hm month Hin). unfold month_ok in Hm.
  destruct (index pattern (month - 1)%Z) as [sm | ] eqn:Es; [ | discriminate ].
  eapply month_body_total; eauto.
  destruct (year >? 2018)%Z; [ | exact I ].
  destruct (assoc Z.eqb year_multipliers (year - 1)%Z) as [prev | ];
    [ | discriminate ].
  exists prev. split; [ reflexivity | ].
  destruct (Qeq_bool prev 0); [ discriminate | reflexivity ].
Qed.

Lemma country_body_total item :
  country_ok (snd item) = true ->
  forall d, yields (country_body item d) (fun _ => True).
Proof.
  intros Hc d. unfold country_body, country_ok in *.
  destruct (assoc String.eqb regional_multipliers (region (snd item)))
    as [multiplier | ] eqn:Er; [ | discriminate ].
  destruct (assoc String.eqb seasonal_patterns (region (snd item)))
    as [pattern | ] eqn:Ep; [ | discriminate ].
  apply andb_prop in Hc. destruct Hc as [Hm Hpop].
  eapply yields_bind; [ apply yields_dict_get, Er | intros ? <- ].
  apply yields_for_each. intros year Hin d1.
  eapply year_body_total; eauto.
  - destruct (Qeq_bool (inject_Z (population (snd item))) 0);
      [ discriminate | reflexivity ].
  - pose proof years_ok as Hy. rewrite forallb_forall in Hy. auto.
Qed.

Lemma generate_from_total countries :
  forallb (fun item => country_ok (snd item)) countries = true ->
  forall s, exists df s', generate_from countries s = Ok (df, s').
Proof.
  intros Hc s. rewrite forallb_forall in Hc.
  destruct (yields_for_each country_body countries
              (fun item Hin => country_body_total item (Hc item Hin)) [] s)
    as (df & s' & E & _).
  eauto.
Qed.

(** The generator returns a table, and the table lines up with the grid
    of the literal reference data. *)
Lemma generate_tourism_dataset_spec s :
  exists df s',
    generate_tourism_dataset s = Ok (df, s') /\
    Forall2 row_of (grid countries_data) df.
Proof.
  destruct (generate_from_total countries_data countries_data_ok s)
    as (df & s' & E).
  exists df, s'. split; [ exact E | ]. apply generate_from_Ok in E. exact E.
Qed.

End GeneratorFacts.

(** ** Properties of the base table *)

Lemma key_eqb_eq k1 k2 : key_eqb k1 k2 = true <-> k1 = k2.
Proof.
  destruct k1 as [[c1 y1] m1], k2 as [[c2 y2] m2]. unfold key_eqb.
  rewrite !andb_true_iff, String.eqb_eq, !Z.eqb_eq.
  split; [ intros [[-> ->] ->]; reflexivity | intros [= -> -> ->]; auto ].
Qed.

Lemma nodupb_sound l : nodupb l = true -> NoDup l.
Proof.
  induction l as [ | k l IH]; simpl; intros H; constructor.
  - apply andb_prop in H. destruct H as [H _].
    intros Hin. rewrite negb_true_iff in H.
    assert (E : existsb (key_eqb k) l = true).
    { apply existsb_exists. exists k. split; [ exact Hin | apply key_eqb_eq; reflexivity ]. }
    congruence.
  - apply andb_prop in H. destruct H as [_ H]. auto.
Qed.

Lemma grid_keys_nodup : NoDup (map slot_key (grid countries_data)).
Proof. apply nodupb_sound. vm_compute. reflexivity. Qed.

Lemma grid_length : length (grid countries_data) = 3900%nat.
Proof. vm_compute. reflexivity. Qed.

Lemma grid_rows_of_country :
  forallb (fun item =>
             Nat.eqb (rows_of_country (fst item) (map slot_key (grid countries_data))) 60)
          countries_data = true.
Proof. vm_compute. reflexivity. Qed.

Lemma in_country_slots item slot :
  In slot (country_slots item) <->
  exists year month, slot = (item, year, month) /\ In year years /\ In month months.
Proof.
  unfold country_slots. rewrite in_flat_map. split.
  - intros (year & Hy & Hin). rewrite in_map_iff in Hin.
    destruct Hin as (month & <- & Hm). eauto.
  - intros (year & month & -> & Hy & Hm). exists year. split; [ exact Hy | ].
    apply in_map. exact Hm.
Qed.

Lemma in_grid countries slot :
  In slot (grid countries) <->
  exists item year month,
    slot = (item, year, month) /\ In item countries /\ In year years /\ In month months.
Proof.
  unfold grid. rewrite in_flat_map. split.
  - intros (item & Hi & Hin). rewrite in_country_slots in Hin.
    destruct Hin as (year & month & -> & Hy & Hm). exists item, year, month. auto.
  - intros (item & year & month & -> & Hi & Hy & Hm). exists item.
    split; [ exact Hi | ]. rewrite in_country_slots. eauto.
Qed.

Lemma Forall2_and_In_l {A B} (Q : A -> B -> Prop) l l' :
  Forall2 Q l l' -> Forall2 (fun a b => In a l /\ Q a b) l l'.
Proof.
  induction 1 as [ | x y l l' Hxy H IH]; constructor.
  - split; [ left; reflexivity | exact Hxy ].
  - revert IH. apply Forall2_impl. intros a b [Hin Hq]. split; [ right | ]; assumption.
Qed.

Lemma int_nonneg x : 0 <= x -> (0 <= Py.int x)%Z.
Proof.
  destruct x as [n d]. unfold Qle, Py.int. simpl. intros H.
  apply Z.quot_pos; lia.
Qed.

Lemma max0_nonneg x : 0 <= Py.max 0 x.
Proof.
  unfold Py.max. destruct (Qle_bool x 0) eqn:E; [ apply Qle_refl | ].
  apply Qlt_le_weak, Qnot_le_lt. intros H. apply Qle_bool_iff in H. congruence.
Qed.

Lemma int_floor x : 0 <= x -> Py.int x = Qfloor x.
Proof.
  destruct x as [n d]. unfold Qle, Py.int. simpl. intros H.
  apply Z.quot_div_nonneg; lia.
Qed.

(** [int(x)] loses less than one unit of a non-negative [x]. *)
Lemma int_error x : 0 <= x -> inject_Z (Py.int x) <= x /\ x < inject_Z (Py.int x) + 1.
Proof.
  intros H. rewrite (int_floor x H). split; [ apply Qfloor_le | ].
  pose proof (Qlt_floor x) as L. rewrite inject_Z_plus in L. exact L.
Qed.

Lemma round_half_even_error y :
  Qabs (inject_Z (Py.round_half_even y) - y) <= 1 # 2.
Proof.
  unfold Py.round_half_even.
  pose proof (Qfloor_le y) as L. pose proof (Qlt_floor y) as U.
  rewrite inject_Z_plus in U.
  destruct (Qcompare (y - inject_Z (Qfloor y)) (1 # 2)) eqn:C.
  all: rewrite ?inject_Z_plus; change (inject_Z 1) with 1 in *.
  - apply Qeq_alt in C. destruct (Z.even (Qfloor y));
      rewrite ?inject_Z_plus; change (inject_Z 1) with 1;
      apply Qabs_Qle_condition; split; lra.
  - apply Qlt_alt in C. apply Qabs_Qle_condition; split; lra.
  - apply Qgt_alt in C. apply Qabs_Qle_condition; split; lra.
Qed.

Lemma pow10_pos n : 0 < Py.pow10 n.
Proof.
  unfold Py.pow10. change 0 with (inject_Z 0). rewrite <- Zlt_Qlt.
  apply Z.pow_pos_nonneg; lia.
Qed.

(** [round(x, n)] moves [x] by at most half a unit of the [n]-th decimal. *)
Lemma round_error x n : Qabs (Py.round x n - x) <= (1 # 2) / Py.pow10 n.
Proof.
  unfold Py.round. pose proof (pow10_pos n) as Hp.
  pose proof (round_half_even_error (x * Py.pow10 n)) as H.
  set (k := inject_Z (Py.round_half_even (x * Py.pow10 n))) in *.
  set (p := Py.pow10 n) in *.
  apply Qabs_Qle_condition in H. destruct H as [H1 H2].
  assert (Hp' : ~ p == 0) by lra.
  assert (Hi : 0 <= / p) by (apply Qinv_le_0_compat, Qlt_le_weak, Hp).
  assert (E : k / p - x == (k - x * p) * / p) by (field; exact Hp').
  rewrite E. unfold Qdiv. apply Qabs_Qle_condition. split.
  - setoid_replace (- ((1 # 2) * / p)) with (- (1 # 2) * / p) by ring.
    apply Qmult_le_compat_r; assumption.
  - apply Qmult_le_compat_r; assumption.
Qed.

Lemma countries_data_populated :
  forallb (fun item => (0 <? population (snd item))%Z) countries_data = true.
Proof. vm_compute. reflexivity. Qed.

(** Truncating the arrivals and rounding the quotient to six decimals
    moves the stored quotient by less than [1 / population + 0.0000005]. *)
Lemma per_capita_gap (arrivals : Q) (pop : Z) :
  0 <= arrivals -> (0 < pop)%Z ->
  Qabs (Py.round (arrivals / inject_Z pop) 6
        - inject_Z (Py.int arrivals) / inject_Z pop)
  < 1 / inject_Z pop + (1 # 2000000).
Proof.
  intros Ha Hpop.
  pose proof (int_error arrivals Ha) as [L U].
  pose proof (round_error (arrivals / inject_Z pop) 6) as Hr.
  assert (HP : 0 < inject_Z pop) by (change 0 with (inject_Z 0); rewrite <- Zlt_Qlt; exact Hpop).
  assert (Hi : 0 < / inject_Z pop) by (apply Qinv_lt_0_compat, HP).
  unfold Qdiv in *.
  set (ip := / inject_Z pop) in *. set (A := inject_Z (Py.int arrivals)) in *.
  set (R := Py.round (arrivals * ip) 6) in *.
  change ((1 # 2) * / Py.pow10 6) with (1 # 2000000) in Hr.
  apply Qabs_Qle_condition in Hr. destruct Hr as [Hr1 Hr2].
  assert (F1 : 0 <= (arrivals - A) * ip)
    by (apply Qmult_le_0_compat; [ lra | apply Qlt_le_weak, Hi ]).
  assert (F2 : (arrivals - A) * ip < 1 * ip)
    by (apply Qmult_lt_compat_r; [ exact Hi | lra ]).
  assert (E : (arrivals - A) * ip == arrivals * ip - A * ip) by ring.
  rewrite E in F1, F2.
  apply Qabs_Qlt_condition. split; lra.
Qed.

Section BaseTable.

Context {rng : Type} {RS : RandomState rng}.

Lemma row_of_key slot r : row_of slot r -> key r = slot_key slot.
Proof.
  destruct slot as [[item year] month]. intros (mu & ym & _ & _ & Hd).
  destruct Hd as (pattern & sm & s & g & _ & _ & _ & _ & Hc & _ & _ & Hy & Hm & _).
  unfold key, slot_key. rewrite Hc, Hy, Hm. reflexivity.
Qed.

Lemma generated_keys s df s' :
  generate_tourism_dataset s = Ok (df, s') ->
  map key df = map slot_key (grid countries_data).
Proof.
  intros E. apply generate_from_Ok in E.
  eapply Forall2_map_eq; [ exact E | ]. intros slot r. apply row_of_key.
Qed.

(** C9: the base table has exactly one record for every country of the
    reference data, every year of 2018..2022 and every month of 1..12:
    the generator returns, the keys of its rows are the keys of the grid
    in loop order, a key is in the table exactly when its country, year
    and month are in range, no key occurs twice, every country has 60
    rows, and the table has 60 * 65 = 3900 rows. *)
Theorem base_table_one_record_per_slot (s : rng) :
  exists df s',
    generate_tourism_dataset s = Ok (df, s') /\
    map key df = map slot_key (grid countries_data) /\
    (forall country year month,
        In (country, year, month) (map key df) <->
        In country (map fst countries_data) /\
        In year [2018; 2019; 2020; 2021; 2022]%Z /\
        In month [1; 2; 3; 4; 5; 6; 7; 8; 9; 10; 11; 12]%Z) /\
    NoDup (map key df) /\
    (forall country, In country (map fst countries_data) ->
                     rows_of_country country (map key df) = 60%nat) /\
    length countries_data = 65%nat /\
    length df = (60 * length countries_data)%nat.
Proof.
  destruct (generate_tourism_dataset_spec s) as (df & s' & E & _).
  pose proof (generated_keys s df s' E) as Hk.
  exists df, s'. split; [ exact E | ]. split; [ exact Hk | ].
  rewrite Hk. repeat split.
  - rewrite in_map_iff in H. destruct H as (slot & Hs & Hin).
    apply in_grid in Hin. destruct Hin as (item & y & m & -> & Hi & _ & _).
    simpl in Hs. injection Hs as <- _ _. apply in_map. exact Hi.
  - rewrite in_map_iff in H. destruct H as (slot & Hs & Hin).
    apply in_grid in Hin. destruct Hin as (item & y & m & -> & _ & Hy & _).
    simpl in Hs. injection Hs as _ <- _. exact Hy.
  - rewrite in_map_iff in H. destruct H as (slot & Hs & Hin).
    apply in_grid in Hin. destruct Hin as (item & y & m & -> & _ & _ & Hm).
    simpl in Hs. injection Hs as _ _ <-. exact Hm.
  - intros (Hc & Hy & Hm). rewrite in_map_iff in Hc.
    destruct Hc as (item & <- & Hi). rewrite in_map_iff.
    exists (item, year, month). split; [ reflexivity | ].
    apply in_grid. exists item, year, month. auto.
  - exact grid_keys_nodup.
  - intros country Hc. rewrite in_map_iff in Hc. destruct Hc as (item & <- & Hi).
    pose proof grid_rows_of_country as H. rewrite forallb_forall in H.
    apply Nat.eqb_eq. apply H. exact Hi.
  - rewrite <- (length_map key df), Hk, length_map. exact grid_length.
Qed.

(** Every row of the generated table was made for a slot of the grid. *)
Lemma generated_rows s df s' :
  generate_tourism_dataset s = Ok (df, s') ->
  Forall (fun r => exists slot, In slot (grid countries_data) /\ row_of slot r) df.
Proof.
  intros E. apply generate_from_Ok in E. apply Forall2_and_In_l in E.
  eapply Forall2_Forall_r; [ exact E | ]. simpl. eauto.
Qed.

(** C6: the arrivals of every record are non-negative, because the value
    is [max(0, monthly * (1 + perturbation))] before it is truncated to
    an integer. *)
Theorem arrivals_nonnegative (s : rng) :
  exists df s',
    generate_tourism_dataset s = Ok (df, s') /\
    Forall (fun r =>
              (exists monthly s0,
                  Arrivals r =
                  Py.int (Py.max 0 (monthly * (1 + fst (np_normal 0 0.1 s0))))) /\
              (0 <= Arrivals r)%Z) df.
Proof.
  destruct (generate_tourism_dataset_spec s) as (df & s' & E & _).
  exists df, s'. split; [ exact E | ].
  eapply Forall_impl; [ | exact (generated_rows s df s' E) ].
  intros r (slot & _ & Hr). destruct slot as [[item year] month].
  destruct Hr as (mu & ym & _ & _ & Hd).
  destruct Hd as (pattern & sm & s0 & g & _ & _ & _ & _ & Hd). simpl in Hd.
  destruct Hd as (_ & _ & _ & _ & _ & Ha & _).
  split.
  - eexists _, s0. exact Ha.
  - rewrite Ha. apply int_nonneg, max0_nonneg.
Qed.

(** C8: the growth rate of a record of 2018 is a draw from N(2, 3); the
    growth rate of a record of a later year [y] is
    [(yearFactor[y] - yearFactor[y-1]) / yearFactor[y-1] * 100] plus a
    draw from N(0, 5): only year multipliers and a draw enter it.  The
    record stores that value rounded to one decimal. *)
Theorem growth_rate_from_year_multipliers (s : rng) :
  exists df s',
    generate_tourism_dataset s = Ok (df, s') /\
    Forall (fun r =>
              exists growth_rate,
                Arrivals_Growth_Rate r = Py.round growth_rate 1 /\
                ((Year r = 2018%Z /\
                  exists s0, growth_rate = fst (np_normal 2 3 s0)) \/
                 (In (Year r) [2019; 2020; 2021; 2022]%Z /\
                  exists factor previous s0,
                    assoc Z.eqb year_multipliers (Year r) = Some factor /\
                    assoc Z.eqb year_multipliers (Year r - 1)%Z = Some previous /\
                    growth_rate =
                    (factor - previous) / previous * 100 + fst (np_normal 0 5 s0))))
           df.
Proof.
  destruct (generate_tourism_dataset_spec s) as (df & s' & E & _).
  exists df, s'. split; [ exact E | ].
  eapply Forall_impl; [ | exact (generated_rows s df s' E) ].
  intros r (slot & Hin & Hr). apply in_grid in Hin.
  destruct Hin as (item & year & month & -> & _ & Hy & _).
  destruct Hr as (mu & ym & _ & Eym & Hd).
  destruct Hd as (pattern & sm & s0 & g & _ & _ & Hg & _ & Hd). simpl in Hd.
  destruct Hd as (_ & _ & _ & Ey & _ & _ & Hgr & _).
  exists g. split; [ exact Hgr | ]. rewrite Ey. unfold growth_drawn in Hg.
  simpl in Hy.
  destruct Hy as [<- | [<- | [<- | [<- | [<- | []]]]]]; simpl in Hg.
  - left. split; [ reflexivity | exact Hg ].
  - right. split; [ simpl; tauto | ].
    destruct Hg as (prev & s1 & Ep & _ & ->). exists ym, prev, s1. auto.
  - right. split; [ simpl; tauto | ].
    destruct Hg as (prev & s1 & Ep & _ & ->). exists ym, prev, s1. auto.
  - right. split; [ simpl; tauto | ].
    destruct Hg as (prev & s1 & Ep & _ & ->). exists ym, prev, s1. auto.
  - right. split; [ simpl; tauto | ].
    destruct Hg as (prev & s1 & Ep & _ & ->). exists ym, prev, s1. auto.
Qed.

(** C10: the country code of every record is the first three characters
    of the country name in upper case; it does not identify the country:
    'United States', 'United Kingdom' and 'United Arab Emirates' all
    have records with code 'UNI'. *)
Theorem country_code_is_upper_prefix (s : rng) :
  exists df s',
    generate_tourism_dataset s = Ok (df, s') /\
    Forall (fun r => Country_Code r = Py.upper (Py.take 3 (Country r))) df /\
    (forall country,
        In country ["United States"; "United Kingdom"; "United Arab Emirates"] ->
        exists r, In r df /\ Country r = country /\ Country_Code r = "UNI").
Proof.
  destruct (generate_tourism_dataset_spec s) as (df & s' & E & Hgrid).
  exists df, s'. split; [ exact E | ]. split.
  - eapply Forall_impl; [ | exact (generated_rows s df s' E) ].
    intros r (slot & _ & Hr). destruct slot as [[item year] month].
    destruct Hr as (mu & ym & _ & _ & Hd).
    destruct Hd as (pattern & sm & s0 & g & _ & _ & _ & _ & Hd). simpl in Hd.
    destruct Hd as (Hc & Hcode & _). rewrite Hcode, Hc. reflexivity.
  - intros country Hc.
    assert (Hitem : exists info, In (country, info) countries_data /\
                                 Py.upper (Py.take 3 country) = "UNI").
    { simpl in Hc. destruct Hc as [<- | [<- | [<- | []]]];
        eexists; (split; [ | reflexivity ]);
        unfold countries_data; simpl; repeat (first [ left; reflexivity | right ]). }
    destruct Hitem as (info & Hi & Hcode).
    assert (Hslot : In ((country, info), 2018%Z, 1%Z) (grid countries_data)).
    { apply in_grid. exists (country, info), 2018%Z, 1%Z.
      repeat split; [ exact Hi | simpl; tauto | simpl; tauto ]. }
    destruct (Forall2_In_l _ _ _ _ Hgrid Hslot) as (r & Hr & Hrow).
    exists r. split; [ exact Hr | ].
    destruct Hrow as (mu & ym & _ & _ & Hd).
    destruct Hd as (pattern & sm & s0 & g & _ & _ & _ & _ & Hd). simpl in Hd.
    destruct Hd as (Hc' & Hcode' & _). rewrite Hcode', Hc'. auto.
Qed.

(** C3, as the code has it: the stored per-capita field is the arrivals
    before truncation over the population, rounded to six decimals;
    the stored arrivals are those arrivals truncated to an integer; so
    the stored field is within [1 / Population + 0.0000005] of the stored
    arrivals over the stored population. *)
Theorem per_capita_from_untruncated_arrivals (s : rng) :
  exists df s',
    generate_tourism_dataset s = Ok (df, s') /\
    Forall (fun r =>
              (exists arrivals,
                  0 <= arrivals /\
                  Arrivals r = Py.int arrivals /\
                  Arrivals_Per_Capita r =
                  Py.round (arrivals / inject_Z (Population r)) 6) /\
              Qabs (Arrivals_Per_Capita r
                    - inject_Z (Arrivals r) / inject_Z (Population r))
              < 1 / inject_Z (Population r) + (1 # 2000000)) df.
Proof.
  destruct (generate_tourism_dataset_spec s) as (df & s' & E & _).
  exists df, s'. split; [ exact E | ].
  eapply Forall_impl; [ | exact (generated_rows s df s' E) ].
  intros r (slot & Hin & Hr). apply in_grid in Hin.
  destruct Hin as (item & year & month & -> & Hi & _ & _).
  destruct Hr as (mu & ym & _ & _ & Hd).
  destruct Hd as (pattern & sm & s0 & g & _ & _ & _ & _ & Hd). simpl in Hd.
  destruct Hd as (_ & _ & _ & _ & _ & Ha & _ & Hpc & Hpop & _).
  pose proof countries_data_populated as Hp. rewrite forallb_forall in Hp.
  specialize (Hp item Hi). simpl in Hp. apply Z.ltb_lt in Hp.
  rewrite Hpc, Ha, Hpop. split.
  - eexists. split; [ apply max0_nonneg | ]. split; reflexivity.
  - apply per_capita_gap; [ apply max0_nonneg | exact Hp ].
Qed.

(** The arrivals of every record, traced back to the reference data: the
    value before perturbation is the product the specification gives. *)
Lemma monthly_arrivals_of_record (s : rng) :
  exists df s',
    generate_tourism_dataset s = Ok (df, s') /\
    Forall (fun r =>
              exists regional pattern seasonal yearly base_monthly s0,
                assoc String.eqb regional_multipliers (Region r) = Some regional /\
                assoc String.eqb seasonal_patterns (Region r) = Some pattern /\
                index pattern (Month r - 1)%Z = Some seasonal /\
                assoc Z.eqb year_multipliers (Year r) = Some yearly /\
                base_monthly ==
                monthly_arrivals (Population r)
                  (maturity_factor (Tourism_Maturity r)) regional seasonal yearly /\
                Arrivals r =
                Py.int (Py.max 0 (base_monthly * (1 + fst (np_normal 0 0.1 s0)))))
           df.
Proof.
  destruct (generate_tourism_dataset_spec s) as (df & s' & E & _).
  exists df, s'. split; [ exact E | ].
  eapply Forall_impl; [ | exact (generated_rows s df s' E) ].
  intros r (slot & _ & Hr). destruct slot as [[item year] month].
  destruct Hr as (mu & ym & Emu & Eym & Hd).
  destruct Hd as (pattern & sm & s0 & g & Ep & Es & _ & _ & Hd). simpl in Hd.
  destruct Hd as (_ & _ & Hreg & Hy & Hm & Ha & _ & _ & Hpop & _ & Hmat).
  rewrite Hreg, Hy, Hm, Hpop, Hmat.
  exists mu, pattern, sm, ym. eexists _, s0.
  repeat (split; [ eassumption | ]). split; [ | exact Ha ].
  unfold monthly_arrivals, maturity_base, maturity_factor.
  destruct (String.eqb (tourism_maturity (snd item)) "mature");
    [ | destruct (String.eqb (tourism_maturity (snd item)) "emerging") ];
    unfold Qdiv; ring.
Qed.

End BaseTable.

(** C3, as the claim words it, fails.  With every draw at the centre of
    its distribution (zero perturbation), the record of Samoa for January
    2018 has 435.6 arrivals before truncation: it stores [Arrivals = 435]
    and [Arrivals_Per_Capita = round(435.6 / 198000, 6) = 0.0022], while
    [435 / 198000 = 0.002197].  The two differ by 3e-06, two orders of
    magnitude above the tolerance of [numpy.isclose]. *)
Lemma per_capita_not_within_tolerance :
  exists df s' r,
    generate_tourism_dataset (RS := mean_source) tt = Ok (df, s') /\
    In r df /\
    Country r = "Samoa" /\ Year r = 2018%Z /\ Month r = 1%Z /\
    Arrivals r = 435%Z /\ Population r = 198000%Z /\
    Arrivals_Per_Capita r == 0.0022 /\
    ~ per_capita_consistent r.
Proof.
  assert (H : match generate_tourism_dataset (RS := mean_source) tt with
              | Ok (df, _) =>
                  option_map
                    (fun r => (Country r, Year r, Month r, Arrivals r, Population r,
                               Qred (Arrivals_Per_Capita r)))
                    (nth_error df 2820)
              | Raise _ => None
              end = Some ("Samoa", 2018%Z, 1%Z, 435%Z, 198000%Z, 11 # 5000))
    by (vm_compute; reflexivity).
  destruct (generate_tourism_dataset (RS := mean_source) tt) as [[df s'] | e];
    [ | discriminate ].
  destruct (nth_error df 2820) as [r | ] eqn:En; [ | discriminate ].
  simpl in H. injection H as Hc Hy Hm Ha Hp Hq.
  assert (Hpc : Arrivals_Per_Capita r == 11 # 5000)
    by (rewrite <- (Qred_correct (Arrivals_Per_Capita r)), Hq; reflexivity).
  exists df, s', r. split; [ reflexivity | ].
  split; [ eapply nth_error_In; exact En | ].
  repeat (split; [ assumption | ]).
  split; [ rewrite Hpc; reflexivity | ].
  unfold per_capita_consistent, isclose. rewrite Ha, Hp, Hpc.
  intros H. vm_compute in H. apply H. reflexivity.
Qed.


(** *** The scenarios on binary64 floats *)

Module Binary64Facts.

Import PrimFloat Binary64.
Local Open Scope float_scope.
Set Warnings "-inexact-float".

(** The scenario of the specification gives 12500.0 exactly. *)
Lemma scenario_arrivals : arrivals 1000000 1.5 1.0 1.0 1.0 0 = 12500.
Proof. vm_compute. reflexivity. Qed.

(** Samoa, January 2018, zero perturbation: the float lies strictly
    between 435 and 436, so [int] stores 435; the quotient by the
    population is within half a unit of the sixth decimal of 0.0022, so
    [round(.., 6)] stores 0.0022; and [numpy.isclose(0.0022, 435 / 198000)]
    is false. *)
Lemma samoa_arrivals :
  let a := arrivals 198000 0.8 0.3 1.1 1.0 0 in
  (435 <? a) = true /\ (a <? 436) = true /\
  (0.0021995 <? a / 198000) = true /\ (a / 198000 <? 0.0022005) = true /\
  isclose 0.0022 (435 / 198000) = false.
Proof. vm_compute. repeat split; reflexivity. Qed.

End Binary64Facts.

(** ** The derived tables *)

(** Shows that a body of draws and pure steps cannot raise. *)
Ltac prove_yields :=
  repeat first
    [ apply yields_ret; exact I
    | apply yields_draw
    | eapply yields_bind;
      [ first [ apply yields_draw
              | match goal with
                | |- yields (if ?c then _ else _) _ => destruct c; apply yields_draw
                end ]
      | intros ? _ ] ].

(** Takes a successful run of a derived-table body apart. *)
Ltac inv_derived H :=
  repeat (let a := fresh "a" in let s := fresh "s" in let E := fresh "E" in
          apply bind_Ok in H; destruct H as (a & s & E & H); clear E);
  unfold ret in H; injection H as <- <-.

Section DerivedTables.

Context {rng : Type} {RS : RandomState rng}.

Lemma hotel_body_appends : appends hotel_body.
Proof. intros row d s. unfold hotel_body. prove_appends. Qed.

Lemma flight_body_appends : appends flight_body.
Proof. intros row d s. unfold flight_body. prove_appends. Qed.

Lemma revenue_body_appends : appends revenue_body.
Proof. intros row d s. unfold revenue_body. prove_appends. Qed.

Lemma hotel_body_total row d : yields (hotel_body row d) (fun _ => True).
Proof. unfold hotel_body. prove_yields. Qed.

Lemma flight_body_total row d : yields (flight_body row d) (fun _ => True).
Proof. unfold flight_body. prove_yields. Qed.

Lemma revenue_body_total row d : yields (revenue_body row d) (fun _ => True).
Proof. unfold revenue_body. prove_yields. Qed.

Lemma hotel_body_Ok row s rows s' :
  hotel_body row [] s = Ok (rows, s') ->
  exists h, rows = [h] /\ hotel_key h = key row.
Proof.
  unfold hotel_body. intros H. inv_derived H.
  eexists. split; reflexivity.
Qed.

Lemma flight_body_Ok row s rows s' :
  flight_body row [] s = Ok (rows, s') ->
  exists f, rows = [f] /\ flight_key f = key row.
Proof.
  unfold flight_body. intros H. inv_derived H.
  eexists. split; reflexivity.
Qed.

Lemma revenue_body_Ok row s rows s' :
  revenue_body row [] s = Ok (rows, s') ->
  exists v, rows = [v] /\ revenue_key v = key row.
Proof.
  unfold revenue_body. intros H. inv_derived H.
  eexists. split; reflexivity.
Qed.

(** What is proved of each derived-table generator, for a body whose
    runs make one row with the key of the base row. *)
Lemma derived_table_spec {D : Type} (body : ArrivalRecord -> list D -> M rng (list D))
    (dkey : D -> Key) :
  appends body ->
  (forall row d, yields (body row d) (fun _ => True)) ->
  (forall row s rows s',
      body row [] s = Ok (rows, s') -> exists d, rows = [d] /\ dkey d = key row) ->
  forall (tourism_df : DataFrame ArrivalRecord) (s : rng),
  exists out s',
    for_each body tourism_df [] s = Ok (out, s') /\
    length out = length tourism_df /\
    map dkey out = map key tourism_df /\
    Forall2 (fun row d => exists s0 s1, body row [] s0 = Ok ([d], s1))
            tourism_df out.
Proof.
  intros Happ Htot Hok tourism_df s.
  destruct (yields_for_each body tourism_df (fun row _ => Htot row) [] s)
    as (out & s' & E & _).
  assert (F : Forall2 (fun row d => exists s0 s1, body row [] s0 = Ok ([d], s1))
                      tourism_df out).
  { rewrite <- (flat_map_singleton tourism_df).
    eapply for_each_Forall2; [ exact Happ | | exact E ].
    intros row s0 rows s1 H. destruct (Hok row s0 rows s1 H) as (d & -> & _).
    constructor; [ eauto | constructor ]. }
  assert (K : map dkey out = map key tourism_df).
  { eapply Forall2_map_eq; [ exact F | ].
    intros row d (s0 & s1 & H). destruct (Hok row s0 _ s1 H) as (d' & [= <-] & Hk).
    exact Hk. }
  exists out, s'. repeat split; try assumption.
  rewrite <- (length_map dkey out), K, length_map. reflexivity.
Qed.

End DerivedTables.

(** C2: for every base table, each derived-table generator returns a table
    with as many rows as the base table and the same (Country, Year, Month)
    keys, row for row; each derived row is what the loop body makes from
    the base row at the same position and a state of the random source. *)
Theorem derived_tables_follow_base_table
    (rng : Type) (RS : RandomState rng)
    (tourism_df : DataFrame ArrivalRecord) (s : rng) :
  (exists hotel s',
      generate_hotel_bookings_dataset tourism_df s = Ok (hotel, s') /\
      length hotel = length tourism_df /\
      map hotel_key hotel = map key tourism_df /\
      (forall k, In k (map hotel_key hotel) <-> In k (map key tourism_df)) /\
      Forall2 (fun row h => exists s0 s1, hotel_body row [] s0 = Ok ([h], s1))
              tourism_df hotel) /\
  (exists flight s',
      generate_flight_data_dataset tourism_df s = Ok (flight, s') /\
      length flight = length tourism_df /\
      map flight_key flight = map key tourism_df /\
      (forall k, In k (map flight_key flight) <-> In k (map key tourism_df)) /\
      Forall2 (fun row f => exists s0 s1, flight_body row [] s0 = Ok ([f], s1))
              tourism_df flight) /\
  (exists revenue s',
      generate_tourism_revenue_dataset tourism_df s = Ok (revenue, s') /\
      length revenue = length tourism_df /\
      map revenue_key revenue = map key tourism_df /\
      (forall k, In k (map revenue_key revenue) <-> In k (map key tourism_df)) /\
      Forall2 (fun row v => exists s0 s1, revenue_body row [] s0 = Ok ([v], s1))
              tourism_df revenue).
Proof.
  split; [ | split ].
  - destruct (derived_table_spec hotel_body hotel_key hotel_body_appends
                hotel_body_total hotel_body_Ok tourism_df s)
      as (out & s' & E & L & K & F).
    exists out, s'. repeat split; try assumption; rewrite K; auto.
  - destruct (derived_table_spec flight_body flight_key flight_body_appends
                flight_body_total flight_body_Ok tourism_df s)
      as (out & s' & E & L & K & F).
    exists out, s'. repeat split; try assumption; rewrite K; auto.
  - destruct (derived_table_spec revenue_body revenue_key revenue_body_appends
                revenue_body_total revenue_body_Ok tourism_df s)
      as (out & s' & E & L & K & F).
    exists out, s'. repeat split; try assumption; rewrite K; auto.
Qed.

(** ** Reproducibility *)

Section Reproducible.

Context {rng1 rng2 : Type} {RS1 : RandomState rng1} {RS2 : RandomState rng2}.
Context (R : rng1 -> rng2 -> Prop).
Hypothesis draws : same_draws R RS1 RS2.

Lemma same_ret {A} (a : A) : same_run R (ret a) (ret a).
Proof. intros s1 s2 H. simpl. auto. Qed.

Lemma same_raise {A} e : same_run R (A := A) (raise e) (raise e).
Proof. intros s1 s2 H. reflexivity. Qed.

Lemma same_bind {A B} (m1 : M rng1 A) (m2 : M rng2 A)
    (k1 : A -> M rng1 B) (k2 : A -> M rng2 B) :
  same_run R m1 m2 -> (forall a, same_run R (k1 a) (k2 a)) ->
  same_run R (bind m1 k1) (bind m2 k2).
Proof.
  intros Hm Hk s1 s2 H. unfold bind. specialize (Hm s1 s2 H).
  destruct (m1 s1) as [[a1 t1] | e1], (m2 s2) as [[a2 t2] | e2];
    simpl in Hm; try contradiction.
  - destruct Hm as [<- Ht]. apply Hk. exact Ht.
  - exact Hm.
Qed.

Lemma same_normal mu sigma :
  same_run R (draw (np_normal mu sigma)) (draw (np_normal mu sigma)).
Proof.
  intros s1 s2 H. unfold draw. destruct draws as [Hn _].
  specialize (Hn mu sigma s1 s2 H).
  destruct (np_normal mu sigma s1), (np_normal mu sigma s2). exact Hn.
Qed.

Lemma same_uniform low high :
  same_run R (draw (np_uniform low high)) (draw (np_uniform low high)).
Proof.
  intros s1 s2 H. unfold draw. destruct draws as [_ Hu].
  specialize (Hu low high s1 s2 H).
  destruct (np_uniform low high s1), (np_uniform low high s2). exact Hu.
Qed.

Lemma same_dict_get {K V} eqb (d : list (K * V)) k :
  same_run R (dict_get eqb d k) (dict_get eqb d k).
Proof. unfold dict_get. destruct (assoc eqb d k); [ apply same_ret | apply same_raise ]. Qed.

Lemma same_list_get {V} (l : list V) i : same_run R (list_get l i) (list_get l i).
Proof. unfold list_get. destruct (index l i); [ apply same_ret | apply same_raise ]. Qed.

Lemma same_py_div x y : same_run R (py_div x y) (py_div x y).
Proof. unfold py_div. destruct (Qeq_bool y 0); [ apply same_raise | apply same_ret ]. Qed.

Lemma same_for_each {X D} (body1 : X -> D -> M rng1 D) (body2 : X -> D -> M rng2 D) :
  (forall x d, same_run R (body1 x d) (body2 x d)) ->
  forall xs d, same_run R (for_each body1 xs d) (for_each body2 xs d).
Proof.
  intros Hb xs. induction xs as [ | x xs IH]; intros d; simpl.
  - apply same_ret.
  - apply same_bind; [ apply Hb | exact IH ].
Qed.

(** Walks two copies of the same body in step. *)
Ltac in_step :=
  repeat first
    [ apply same_for_each; intros ? ?
    | apply same_ret
    | apply same_normal
    | apply same_uniform
    | apply same_dict_get
    | apply same_list_get
    | apply same_py_div
    | apply same_bind; [ | intros ? ]
    | match goal with
      | |- same_run _ (if ?c then _ else _) (if ?c then _ else _) => destruct c
      end ].

Lemma same_generate_tourism_dataset :
  same_run R generate_tourism_dataset generate_tourism_dataset.
Proof.
  unfold generate_tourism_dataset, generate_from.
  apply same_for_each. intros item d. unfold country_body. in_step.
Qed.

Lemma same_main : same_run R main main.
Proof.
  unfold main. apply same_bind; [ apply same_generate_tourism_dataset | intros tourism ].
  apply same_bind; [ | intros hotel ].
  { unfold generate_hotel_bookings_dataset. in_step. }
  apply same_bind; [ | intros flight ].
  { unfold generate_flight_data_dataset. in_step. }
  apply same_bind; [ | intros revenue ].
  { unfold generate_tourism_revenue_dataset. in_step. }
  apply same_ret.
Qed.

End Reproducible.

Lemma main_total {rng : Type} {RS : RandomState rng} : yields main (fun _ => True).
Proof.
  unfold main.
  apply yields_bind with (P := fun _ => True).
  { intros s. destruct (generate_tourism_dataset_spec s) as (df & s' & E & _). eauto. }
  intros tourism _.
  apply yields_bind with (P := fun _ => True).
  { apply yields_for_each. intros row _ d. apply hotel_body_total. }
  intros hotel _.
  apply yields_bind with (P := fun _ => True).
  { apply yields_for_each. intros row _ d. apply flight_body_total. }
  intros flight _.
  apply yields_bind with (P := fun _ => True).
  { apply yields_for_each. intros row _ d. apply revenue_body_total. }
  intros revenue _. apply yields_ret. exact I.
Qed.



(** ** The verifier *)

Section VerifierFacts.

Import Verifier VerifierSpec.

Context {conn : Type} {C : Connection conn}.

Lemma query_eqb_eq a b : query_eqb a b = true <-> a = b.
Proof. destruct a, b; simpl; split; intros H; try reflexivity; discriminate. Qed.

Lemma ran_app q log1 log2 : ran q (log1 ++ log2) <-> ran q log1 \/ ran q log2.
Proof.
  unfold ran. split.
  - intros (e & Hin & He). apply in_app_or in Hin. destruct Hin; eauto.
  - intros [(e & Hin & He) | (e & Hin & He)]; exists e; split; auto using in_or_app.
Qed.

Lemma report_cell_own q : own_lines (q, report_cell q).
Proof.
  intros frame lines. simpl. unfold report_cell.
  destruct (iloc0 0 frame); intros [= <-]. split.
  - constructor; [ left; reflexivity | constructor ].
  - eexists. split; [ left; reflexivity | reflexivity ].
Qed.

Lemma report_len_own q : own_lines (q, report_len q).
Proof.
  intros frame lines. simpl. unfold report_len. intros [= <-]. split.
  - constructor; [ left; reflexivity | constructor ].
  - eexists. split; [ left; reflexivity | reflexivity ].
Qed.

Lemma report_regions_own : own_lines (Regional, report_regions).
Proof.
  intros frame lines. simpl. unfold report_regions. intros [= <-]. split.
  - constructor; [ left; reflexivity | ].
    apply Forall_forall. intros e He. apply in_map_iff in He.
    destruct He as (row & <- & _). right. reflexivity.
  - eexists. split; [ left; reflexivity | reflexivity ].
Qed.

Lemma basic_battery_own : Forall own_lines basic_battery.
Proof.
  unfold basic_battery.
  repeat (apply Forall_cons;
          [ first [ apply report_cell_own | apply report_len_own
                  | apply report_regions_own ] | ]).
  apply Forall_nil.
Qed.

Lemma solution_battery_own : Forall own_lines solution_battery.
Proof.
  unfold solution_battery.
  repeat (apply Forall_cons; [ apply report_len_own | ]).
  apply Forall_nil.
Qed.

(** A [try] block prints lines about its own check only, and at least
    one of them. *)
Lemma try_query_lines check (c : conn) :
  own_lines check ->
  Forall (fun e => about e = Some (fst check) \/ about e = None)
         (snd (try_query (fst check) c (snd check))) /\
  ran (fst check) (snd (try_query (fst check) c (snd check))).
Proof.
  intros Hown. unfold try_query.
  destruct (read_sql_query (fst check) c) as [frame | msg].
  - destruct (snd check frame) as [lines | ] eqn:E; simpl.
    + apply Hown in E. exact E.
    + split; [ repeat constructor; simpl; auto | ].
      eexists. split; [ left; reflexivity | reflexivity ].
  - simpl. split; [ repeat constructor; simpl; auto | ].
    eexists. split; [ left; reflexivity | reflexivity ].
Qed.

Lemma try_query_error q (c : conn) report msg :
  read_sql_query q c = Error msg -> try_query q c report = (false, [Failed q msg]).
Proof. unfold try_query. intros ->. reflexivity. Qed.

Lemma try_query_false q (c : conn) report :
  fst (try_query q c report) = false ->
  exists msg, snd (try_query q c report) = [Failed q msg].
Proof.
  unfold try_query. destruct (read_sql_query q c) as [frame | msg].
  - destruct (report frame); simpl; [ discriminate | eauto ].
  - simpl. eauto.
Qed.

(** The basic checks stop at the first failure. *)
Lemma test_sql_compatibility_gate (c : conn) :
  test_sql_compatibility c = gate basic_battery c.
Proof.
  unfold test_sql_compatibility, basic_battery, gate.
  destruct (try_query BasicSelect c _) as [[] log1]; simpl; [ | reflexivity ].
  destruct (try_query YearRange c _) as [[] log2]; simpl;
    [ | reflexivity ].
  destruct (try_query PeakOffSeason c _) as [[] log3]; simpl;
    [ | reflexivity ].
  destruct (try_query GrowthRate c _) as [[] log4]; simpl;
    [ | reflexivity ].
  destruct (try_query Regional c _) as [[] log5]; simpl;
    rewrite ?app_nil_r; reflexivity.
Qed.

(** The solution checks all run. *)
Lemma test_specific_sql_solutions_run_all (c : conn) :
  test_specific_sql_solutions c = run_all solution_battery c.
Proof.
  unfold test_specific_sql_solutions, run_all, solution_battery. simpl.
  destruct (try_query Solution1 c _) as [ok1 log1].
  destruct (try_query Solution3 c _) as [ok3 log3].
  destruct (try_query Solution4 c _) as [ok4 log4].
  simpl. rewrite app_nil_r. reflexivity.
Qed.

Lemma gate_lines checks (c : conn) :
  Forall own_lines checks ->
  Forall (fun e => (exists q, In q (map fst checks) /\ about e = Some q) \/
                   about e = None)
         (snd (gate checks c)).
Proof.
  induction 1 as [ | [q report] checks Hown Hrest IH]; simpl; [ constructor | ].
  pose proof (try_query_lines (q, report) c Hown) as [Hl _]. simpl in Hl.
  destruct (try_query q c report) as [ok log]. simpl in Hl.
  assert (Hl' : Forall (fun e => (exists q0, (q = q0 \/ In q0 (map fst checks)) /\
                                             about e = Some q0) \/ about e = None) log).
  { revert Hl. apply Forall_impl. intros e [He | He]; eauto. }
  destruct ok; [ | exact Hl' ].
  destruct (gate checks c) as [ok' log']. simpl in *.
  apply Forall_app. split; [ exact Hl' | ].
  revert IH. apply Forall_impl. intros e [(q0 & Hq0 & He) | He]; eauto.
Qed.

Lemma gate_ran checks (c : conn) q :
  Forall own_lines checks -> ran q (snd (gate checks c)) -> In q (map fst checks).
Proof.
  intros Hown (e & Hin & He). pose proof (gate_lines checks c Hown) as H.
  rewrite Forall_forall in H. destruct (H e Hin) as [(q0 & Hq0 & He') | He']; congruence.
Qed.

(** When the gate is closed, a failure has been reported. *)
Lemma gate_false checks (c : conn) :
  fst (gate checks c) = false ->
  exists q msg, In q (map fst checks) /\ In (Failed q msg) (snd (gate checks c)).
Proof.
  induction checks as [ | [q report] checks IH]; simpl; [ discriminate | ].
  destruct (try_query q c report) as [ok log] eqn:E.
  destruct ok.
  - destruct (gate checks c) as [ok' log']. simpl in *. intros H.
    destruct (IH H) as (q' & msg & Hq & Hin). exists q', msg.
    split; [ right; exact Hq | apply in_or_app; right; exact Hin ].
  - intros _. destruct (try_query_false q c report) as (msg & Hm);
      [ rewrite E; reflexivity | ].
    rewrite E in Hm. simpl in *. subst log. exists q, msg.
    split; [ left | left ]; reflexivity.
Qed.

Lemma in_after q l q' : In q' (after q l) -> In q' l.
Proof.
  induction l as [ | x l IH]; simpl; [ auto | ].
  destruct (query_eqb x q); auto.
Qed.

(** A query of the battery that raises closes the gate: its failure is
    reported, unless an earlier check had failed already, and nothing
    that follows it in the battery is run. *)
Lemma gate_error checks (c : conn) q msg :
  Forall own_lines checks ->
  NoDup (map fst checks) ->
  In q (map fst checks) ->
  read_sql_query q c = Error msg ->
  fst (gate checks c) = false /\
  (In (Failed q msg) (snd (gate checks c)) \/
   exists q0 msg0, In q (after q0 (map fst checks)) /\
                   In (Failed q0 msg0) (snd (gate checks c))) /\
  forall q', In q' (after q (map fst checks)) -> ~ ran q' (snd (gate checks c)).
Proof.
  intros Hown. induction Hown as [ | [q0 report] checks Hown Hrest IH];
    simpl; intros Hnd Hin Herr; [ contradiction | ].
  inversion Hnd as [ | ? ? Hnotin Hnd']; subst.
  pose proof (try_query_lines (q0, report) c Hown) as [Hl _]. simpl in Hl.
  destruct (query_eqb q0 q) eqn:Eq.
  - apply query_eqb_eq in Eq. subst q0.
    rewrite (try_query_error q c report msg Herr). simpl.
    split; [ reflexivity | ]. split; [ left; left; reflexivity | ].
    intros q' Hq' (e & [<- | []] & He). simpl in He. injection He as <-.
    contradiction.
  - destruct Hin as [-> | Hin];
      [ rewrite (proj2 (query_eqb_eq q q) eq_refl) in Eq; discriminate | ].
    destruct (IH Hnd' Hin Herr) as (Hf & Hrep & Hlater).
    assert (Hq0 : forall q', In q' (after q (map fst checks)) -> q' <> q0).
    { intros q' Hq' ->. apply Hnotin. eapply in_after. exact Hq'. }
    pose proof (try_query_false q0 c report) as Hfail.
    destruct (try_query q0 c report) as [ok log]. simpl in Hl, Hfail.
    assert (Hlog : forall q', q' <> q0 -> ~ ran q' log).
    { intros q' Hne (e & He & Ha). rewrite Forall_forall in Hl.
      destruct (Hl e He); congruence. }
    destruct ok.
    + destruct (gate checks c) as [ok' log']. simpl in *.
      split; [ exact Hf | ]. split.
      * destruct Hrep as [Hrep | (q1 & msg1 & Hq1 & Hrep)].
        -- left. apply in_or_app. right. exact Hrep.
        -- right. exists q1, msg1. split; [ | apply in_or_app; right; exact Hrep ].
           destruct (query_eqb q0 q1); [ exact Hin | exact Hq1 ].
      * intros q' Hq' Hran. apply ran_app in Hran. destruct Hran as [Hran | Hran].
        -- exact (Hlog q' (Hq0 q' Hq') Hran).
        -- exact (Hlater q' Hq' Hran).
    + simpl. split; [ reflexivity | ]. split.
      * right. destruct (Hfail eq_refl) as (msg0 & ->). exists q0, msg0.
        rewrite (proj2 (query_eqb_eq q0 q0) eq_refl).
        split; [ exact Hin | left; reflexivity ].
      * intros q' Hq'. apply Hlog, Hq0, Hq'.
Qed.

Lemma run_all_ran checks (c : conn) q :
  Forall own_lines checks -> In q (map fst checks) -> ran q (run_all checks c).
Proof.
  unfold run_all. induction 1 as [ | check checks Hown Hrest IH]; simpl;
    [ contradiction | ].
  intros [<- | Hin]; apply ran_app.
  - left. apply try_query_lines. exact Hown.
  - right. apply IH. exact Hin.
Qed.

Lemma run_all_error checks (c : conn) q msg :
  In q (map fst checks) -> read_sql_query q c = Error msg ->
  In (Failed q msg) (run_all checks c).
Proof.
  unfold run_all. induction checks as [ | [q0 report] checks IH]; simpl;
    [ contradiction | ].
  intros [-> | Hin] Herr; apply in_or_app.
  - left. rewrite (try_query_error q c report msg Herr). left. reflexivity.
  - right. apply IH; assumption.
Qed.

End VerifierFacts.

Section VerifierClaims.

Import Verifier VerifierSpec.

Lemma gate_head_ran {conn : Type} {C : Connection conn} q report checks (c : conn) :
  own_lines (q, report) -> ran q (snd (gate ((q, report) :: checks) c)).
Proof.
  intros Hown. simpl.
  pose proof (try_query_lines (q, report) c Hown) as [_ Hr]. simpl in Hr.
  destruct (try_query q c report) as [[] log]; simpl in *; [ | exact Hr ].
  destruct (gate checks c) as [ok' log']. simpl. apply ran_app. left. exact Hr.
Qed.

Lemma gate_cons {conn : Type} {C : Connection conn} q report checks (c : conn) :
  gate ((q, report) :: checks) c
  = let '(ok, log) := try_query q c report in
    if ok then let '(ok', log') := gate checks c in (ok', log ++ log')
    else (false, log).
Proof. reflexivity. Qed.

(** Whatever the store, when the count query returns 0 the count check
    is reported as passed and the year-range check is run next; [main]
    returns early only after a check has been reported as failed. *)
Lemma count_zero_goes_on {conn : Type} {C : Connection conn} (c : conn) :
  read_sql_query BasicSelect c = Rows [[VInt 0]] ->
  exists rest how,
    main (Some c) = (Passed BasicSelect [VInt 0] :: rest, how) /\
    ran YearRange rest /\
    (how = Returned -> exists q msg, In (Failed q msg) rest).
Proof.
  intros Hcount. unfold main. rewrite test_sql_compatibility_gate.
  unfold basic_battery. rewrite gate_cons.
  assert (E1 : try_query BasicSelect c (report_cell BasicSelect)
               = (true, [Passed BasicSelect [VInt 0]]))
    by (unfold try_query; rewrite Hcount; reflexivity).
  rewrite E1. cbv iota beta.
  pose proof (gate_head_ran YearRange (report_cell YearRange)
                [ (PeakOffSeason, report_len PeakOffSeason);
                  (GrowthRate, report_len GrowthRate);
                  (Regional, report_regions) ] c (report_cell_own YearRange))
    as Hran.
  match goal with
  | |- context [gate ?l c] => pose proof (gate_false l c) as Hfalse;
                              destruct (gate l c) as [ok' log']
  end.
  simpl in Hran, Hfalse. destruct ok'.
  - destruct (analyze_data_quality c) as [lines [msg | ]];
      eexists _, _; (split; [ simpl; reflexivity | ]);
      (split; [ | discriminate ]);
      apply ran_app; left; apply ran_app; left; apply ran_app; left; exact Hran.
  - eexists _, _. split; [ simpl; reflexivity | ].
    split; [ apply ran_app; left; exact Hran | ].
    intros _. destruct (Hfalse eq_refl) as (q & msg & _ & Hin).
    exists q, msg. apply in_or_app. left. exact Hin.
Qed.

(** C4, as the code has it: on a loaded table with no rows (whatever its
    columns) the count query returns 0, the count check is reported as
    passed, and the verifier goes on to the year-range check instead of
    halting; it returns early only after a check has been reported as
    failed. *)
Theorem zero_rows_pass_the_count_check (cols : list string) :
  read_sql_query BasicSelect (mkStore cols []) = Rows [[VInt 0]] /\
  exists rest how,
    main (Some (mkStore cols [])) = (Passed BasicSelect [VInt 0] :: rest, how) /\
    ran YearRange rest /\
    (how = Returned -> exists q msg, In (Failed q msg) rest).
Proof.
  split; [ reflexivity | ]. apply count_zero_goes_on. reflexivity.
Qed.

(** C4, as the claim words it, fails: on the table with every column
    and no row the count query returns 0, and the verifier does not
    halt: all five basic checks and the three solution checks are
    reported as passed, the data-quality queries run, and [main] runs
    to its last line. *)
Lemma empty_table_does_not_halt :
  read_sql_query BasicSelect empty_store = Rows [[VInt 0]] /\
  main (Some empty_store)
  = ([ Passed BasicSelect [VInt 0]; Passed YearRange [VNull];
       Passed PeakOffSeason [VInt 0]; Passed GrowthRate [VInt 0];
       Passed Regional [VInt 0]; BasicTestsPassed;
       Passed Solution1 [VInt 0]; Passed Solution3 [VInt 0];
       Passed Solution4 [VInt 0];
       Line [VInt 0; VNull; VNull; VNull]; Line [VNull; VNull; VInt 0];
       Line [VInt 0; VInt 0]; ScriptWritten; Compatible ],
     Finished) /\
  ~ halts_after_count empty_store.
Proof.
  split; [ reflexivity | ]. split; [ vm_compute; reflexivity | ].
  intros H. apply (H YearRange); [ discriminate | ].
  exists (Passed YearRange [VNull]). split; [ | reflexivity ].
  vm_compute. right. left. reflexivity.
Qed.

(** C5, as the code has it.  The five basic checks are a gate: they
    stop at the first one that fails.  When a basic query raises, the
    exception is caught and reported as failed (unless an earlier basic
    check failed already), no later basic check and no solution check
    is run, and [main] returns early.  The three solution checks all
    run: when a solution query raises, the exception is caught and
    reported as failed, and the other solution checks still run. *)
Theorem failures_abort_basic_checks_only
    (conn : Type) (C : Connection conn) (c : conn) (q : query) (msg : string) :
  read_sql_query q c = Error msg ->
  test_sql_compatibility c = gate basic_battery c /\
  test_specific_sql_solutions c = run_all solution_battery c /\
  (In q [BasicSelect; YearRange; PeakOffSeason; GrowthRate; Regional] ->
   exists log,
     main (Some c) = (log ++ [BasicTestsFailed], Returned) /\
     (In (Failed q msg) log \/
      exists q0 msg0,
        In q (after q0 [BasicSelect; YearRange; PeakOffSeason; GrowthRate; Regional]) /\
        In (Failed q0 msg0) log) /\
     (forall q',
         In q' (after q [BasicSelect; YearRange; PeakOffSeason; GrowthRate; Regional]) ->
         ~ ran q' (log ++ [BasicTestsFailed])) /\
     (forall q', In q' [Solution1; Solution3; Solution4] ->
                 ~ ran q' (log ++ [BasicTestsFailed]))) /\
  (In q [Solution1; Solution3; Solution4] ->
   In (Failed q msg) (test_specific_sql_solutions c) /\
   forall q', In q' [Solution1; Solution3; Solution4] ->
              ran q' (test_specific_sql_solutions c)).
Proof.
  intros Herr.
  split; [ apply test_sql_compatibility_gate | ].
  split; [ apply test_specific_sql_solutions_run_all | ].
  split.
  - intros Hq.
    assert (Hnd : NoDup (map fst basic_battery)).
    { simpl. repeat constructor; simpl; intuition discriminate. }
    destruct (gate_error basic_battery c q msg basic_battery_own Hnd Hq Herr)
      as (Hf & Hrep & Hlater).
    pose proof (gate_lines basic_battery c basic_battery_own) as Hlines.
    unfold main. rewrite test_sql_compatibility_gate.
    destruct (gate basic_battery c) as [ok log]. simpl in Hf, Hrep, Hlater, Hlines.
    subst ok. exists log. split; [ reflexivity | ].
    split; [ exact Hrep | ].
    assert (Htail : forall q', ~ ran q' [BasicTestsFailed]).
    { intros q' (e & [<- | []] & He). discriminate. }
    split.
    + intros q' Hq' Hran. apply ran_app in Hran. destruct Hran as [Hran | Hran].
      * exact (Hlater q' Hq' Hran).
      * exact (Htail q' Hran).
    + intros q' Hq' Hran. apply ran_app in Hran. destruct Hran as [Hran | Hran].
      * destruct Hran as (e & Hin & He). rewrite Forall_forall in Hlines.
        destruct (Hlines e Hin) as [(q0 & Hq0 & He0) | He0]; [ | congruence ].
        rewrite He in He0. injection He0 as <-.
        simpl in Hq', Hq0. intuition (subst; discriminate).
      * exact (Htail q' Hran).
  - intros Hq. rewrite test_specific_sql_solutions_run_all. split.
    + apply run_all_error; assumption.
    + intros q' Hq'. apply run_all_ran; [ apply solution_battery_own | exact Hq' ].
Qed.

Lemma failures_abort_basic_checks_only_witness :
  read_sql_query PeakOffSeason store_without_peak
  = Error "no such column: Peak_Season_Arrivals" /\
  test_sql_compatibility store_without_peak = gate basic_battery store_without_peak /\
  test_specific_sql_solutions store_without_peak
  = run_all solution_battery store_without_peak /\
  (In PeakOffSeason [BasicSelect; YearRange; PeakOffSeason; GrowthRate; Regional] ->
   exists log,
     main (Some store_without_peak) = (log ++ [BasicTestsFailed], Returned) /\
     (In (Failed PeakOffSeason "no such column: Peak_Season_Arrivals") log \/
      exists q0 msg0,
        In PeakOffSeason
           (after q0 [BasicSelect; YearRange; PeakOffSeason; GrowthRate; Regional]) /\
        In (Failed q0 msg0) log) /\
     (forall q',
         In q' (after PeakOffSeason
                  [BasicSelect; YearRange; PeakOffSeason; GrowthRate; Regional]) ->
         ~ ran q' (log ++ [BasicTestsFailed])) /\
     (forall q', In q' [Solution1; Solution3; Solution4] ->
                 ~ ran q' (log ++ [BasicTestsFailed]))) /\
  (In PeakOffSeason [Solution1; Solution3; Solution4] ->
   In (Failed PeakOffSeason "no such column: Peak_Season_Arrivals")
      (test_specific_sql_solutions store_without_peak) /\
   forall q', In q' [Solution1; Solution3; Solution4] ->
              ran q' (test_specific_sql_solutions store_without_peak)).
Proof.
  split; [ reflexivity | ].
  apply (failures_abort_basic_checks_only Store sqlite store_without_peak
           PeakOffSeason "no such column: Peak_Season_Arrivals").
  reflexivity.
Defined.

(** C5, as the claim words it, fails: on a table without the column
    [Peak_Season_Arrivals] the third basic query raises; the failure is
    caught and reported, but then the verifier returns: the growth-rate
    check, the regional check and the three solution checks are never
    run. *)
Lemma basic_check_failure_aborts_the_rest :
  read_sql_query PeakOffSeason store_without_peak
  = Error "no such column: Peak_Season_Arrivals" /\
  main (Some store_without_peak)
  = ([ Passed BasicSelect [VInt 0]; Passed YearRange [VNull];
       Failed PeakOffSeason "no such column: Peak_Season_Arrivals";
       BasicTestsFailed ],
     Returned) /\
  ~ failure_is_local store_without_peak PeakOffSeason
      "no such column: Peak_Season_Arrivals".
Proof.
  split; [ reflexivity | ]. split; [ vm_compute; reflexivity | ].
  intros [_ H].
  destruct (H GrowthRate) as (e & Hin & He);
    [ simpl; tauto | ].
  vm_compute in Hin.
  destruct Hin as [<- | [<- | [<- | [<- | []]]]]; discriminate.
Qed.

End VerifierClaims.
